(** * git-ai: prompt construction, repository summary, configuration and the
      interactive message session

    A shallow embedding of [git_ai/llm_client.py], [git_ai/git_utils.py],
    [git_ai/config.py] and [git_ai/cli.py].

    Python values are modelled as the interpreter has them: a [str] is a
    sequence of Unicode code points, an [int] is an unbounded integer, a
    [float] is an IEEE 754 binary64 number, a [dict] is an insertion-ordered
    association with unique keys.  A call that may raise returns a [result]. *)

From Stdlib Require Import List ZArith NArith Bool Lia String Ascii.
From Stdlib Require Import Floats.
From Stdlib Require Import DecimalN DecimalPos.
Import ListNotations.

Local Open Scope Z_scope.
Local Open Scope list_scope.

(** ** Python strings *)

Module Str.

(** A character is a code point; a string is a list of them, so that
    [length] is Python's [len]. *)
Definition char := N.
Definition str := list char.

Definition char_eqb (a b : char) : bool := N.eqb a b.

Fixpoint eqb (s t : str) : bool :=
  match s, t with
  | [], [] => true
  | a :: s', b :: t' => char_eqb a b && eqb s' t'
  | _, _ => false
  end.

(** Source text is UTF-8; [decode] turns the bytes of a literal into code
    points (well-formed input only: the literals of the source). *)
Definition cont (b : N) : N := N.land b 63.

Fixpoint decode (fuel : nat) (bs : list N) : str :=
  match fuel with
  | O => []
  | S fuel' =>
      match bs with
      | [] => []
      | b0 :: r0 =>
          if N.ltb b0 128 then b0 :: decode fuel' r0
          else if N.ltb b0 224 then
            match r0 with
            | b1 :: r1 => (N.land b0 31 * 64 + cont b1)%N :: decode fuel' r1
            | _ => [b0]
            end
          else if N.ltb b0 240 then
            match r0 with
            | b1 :: b2 :: r2 =>
                ((N.land b0 15 * 64 + cont b1) * 64 + cont b2)%N
                  :: decode fuel' r2
            | _ => b0 :: r0
            end
          else
            match r0 with
            | b1 :: b2 :: b3 :: r3 =>
                (((N.land b0 7 * 64 + cont b1) * 64 + cont b2) * 64
                 + cont b3)%N :: decode fuel' r3
            | _ => b0 :: r0
            end
      end
  end.

Definition lit (s : string) : str :=
  let bs := List.map N_of_ascii (list_ascii_of_string s) in
  decode (List.length bs) bs.

Definition nl : str := [10%N].
Definition dq : str := [34%N].

(** [sep.join(l)] *)
Fixpoint join (sep : str) (l : list str) : str :=
  match l with
  | [] => []
  | [x] => x
  | x :: rest => x ++ sep ++ join sep rest
  end.

(** A block of source lines, as a triple-quoted literal lays them out. *)
Definition lines (l : list str) : str := join nl l.

Fixpoint starts_with (p s : str) : bool :=
  match p, s with
  | [], _ => true
  | a :: p', b :: s' => char_eqb a b && starts_with p' s'
  | _ :: _, [] => false
  end.

(** [needle in hay] *)
Fixpoint contains (needle hay : str) : bool :=
  starts_with needle hay
  || match hay with
     | [] => false
     | _ :: hay' => contains needle hay'
     end.

(** [s[:n]]: a negative bound counts from the end. *)
Definition slice_to (s : str) (n : Z) : str :=
  if n <? 0
  then firstn (Z.to_nat (Z.of_nat (List.length s) + n)) s
  else firstn (Z.to_nat n) s.

(** Characters for which [str.isspace] holds. *)
Definition is_space (c : char) : bool :=
  ((9 <=? c) && (c <=? 13) || (28 <=? c) && (c <=? 32)
   || (c =? 133) || (c =? 160) || (c =? 5760)
   || (8192 <=? c) && (c <=? 8202) || (c =? 8232) || (c =? 8233)
   || (c =? 8239) || (c =? 8287) || (c =? 12288))%N.

Fixpoint lstrip (s : str) : str :=
  match s with
  | c :: s' => if is_space c then lstrip s' else s
  | [] => []
  end.

Definition rstrip (s : str) : str := rev (lstrip (rev s)).

(** [s.strip()] *)
Definition strip (s : str) : str := rstrip (lstrip s).

(** [s.split(sep)] for a one-character separator: never returns []. *)
Fixpoint split_on (sep : char) (s : str) : list str :=
  match s with
  | [] => [[]]
  | c :: s' =>
      if char_eqb c sep then [] :: split_on sep s'
      else match split_on sep s' with
           | w :: ws => (c :: w) :: ws
           | [] => [[c]]
           end
  end.

(** [s.split()]: maximal runs of non-space characters. *)
Fixpoint words_aux (cur : str) (s : str) : list str :=
  match s with
  | [] => match cur with [] => [] | _ => [rev cur] end
  | c :: s' =>
      if is_space c
      then match cur with
           | [] => words_aux [] s'
           | _ => rev cur :: words_aux [] s'
           end
      else words_aux (c :: cur) s'
  end.

Definition words (s : str) : list str := words_aux [] s.

(** Characters outside ASCII: where every emoji lives. *)
Definition non_ascii (c : char) : bool := (128 <=? c)%N.

End Str.

Import Str.

(** ** Python values held by the configuration *)

Local Set Warnings "-register-all".

Inductive value :=
| VNone
| VBool (b : bool)
| VInt (z : Z)
| VFloat (f : float)
| VStr (s : str)
| VList (l : list value)
| VDict (d : list (str * value)).

(** ** Exceptions and results *)

(** [UnsupportedProvider p] is [ValueError(f"Unsupported provider: {p}")];
    [SdkError] stands for whatever a provider SDK raises. *)
Inductive exn :=
| TypeError
| ValueError (msg : str)
| UnsupportedProvider (p : value)
| KeyError (key : str)
| IndexError
| AttributeError
| OverflowError
| GitError (msg : str)
| SdkError (msg : str).

Inductive result (A : Type) :=
| Ok (a : A)
| Raise (e : exn).

Arguments Ok {A} a.
Arguments Raise {A} e.

Definition bind {A B : Type} (r : result A) (k : A -> result B) : result B :=
  match r with
  | Ok a => k a
  | Raise e => Raise e
  end.

Notation "x <- r ;; k" := (bind r (fun x => k))
  (at level 61, r at next level, right associativity).

Definition dict := list (str * value).

(** [d.get(k)] *)
Fixpoint dict_get (k : str) (d : dict) : option value :=
  match d with
  | [] => None
  | (k', v) :: d' => if Str.eqb k k' then Some v else dict_get k d'
  end.

(** [d[k] = v]: an existing key keeps its place, a new one goes last. *)
Fixpoint dict_set (k : str) (v : value) (d : dict) : dict :=
  match d with
  | [] => [(k, v)]
  | (k', v') :: d' =>
      if Str.eqb k k' then (k, v) :: d' else (k', v') :: dict_set k v d'
  end.

(** [d[k]] *)
Definition dict_index (k : str) (d : dict) : result value :=
  match dict_get k d with
  | Some v => Ok v
  | None => Raise (KeyError k)
  end.

(** [v == "s"] for a string literal. *)
Definition is_str (v : value) (s : str) : bool :=
  match v with
  | VStr t => Str.eqb t s
  | _ => false
  end.

(** ** Floats *)

Module Num.

Definition f0_2 : float := 0x1.999999999999ap-3%float.   (* 0.2 *)
Definition f0_3 : float := 0x1.3333333333333p-2%float.   (* 0.3 *)
Definition f0_5 : float := 0.5%float.
Definition f1_0 : float := 1%float.

(** [float(z)]: round to nearest, ties to even; too large an int raises. *)
Definition float_of_Z (z : Z) : result float :=
  let a := Z.abs z in
  let sign (f : float) := if z <? 0 then PrimFloat.opp f else f in
  let bits := if a =? 0 then 0 else Z.log2 a + 1 in
  if bits <=? 53 then Ok (sign (PrimFloat.of_uint63 (Uint63.of_Z a)))
  else
    let sh := bits - 53 in
    let q := Z.shiftr a sh in
    let r := a - Z.shiftl q sh in
    let half := Z.shiftl 1 (sh - 1) in
    let q' := if (half <? r) || ((r =? half) && Z.odd q) then q + 1 else q in
    if Z.shiftl 1 1024 <=? Z.shiftl q' sh then Raise OverflowError
    else Ok (sign (Z.ldexp (PrimFloat.of_uint63 (Uint63.of_Z q')) sh)).

(** [v + x] for a float [x]. *)
Definition add_float (v : value) (x : float) : result float :=
  match v with
  | VFloat f => Ok (PrimFloat.add f x)
  | VInt z => f <- float_of_Z z ;; Ok (PrimFloat.add f x)
  | VBool b => Ok (PrimFloat.add (if b then 1%float else 0%float) x)
  | _ => Raise TypeError
  end.

(** [min(a, b)]: the first of the smallest, so [b] only when [b < a]. *)
Definition min_float (a b : float) : float :=
  if PrimFloat.ltb b a then b else a.

(** [n > v] for an int [n] (here a length, far below 2^53). *)
Definition int_gt (n : Z) (v : value) : result bool :=
  match v with
  | VInt z => Ok (z <? n)
  | VBool b => Ok ((if b then 1 else 0) <? n)
  | VFloat f => fn <- float_of_Z n ;; Ok (PrimFloat.ltb f fn)
  | _ => Raise TypeError
  end.

(** A value usable as a slice bound ([__index__]). *)
Definition as_index (v : value) : result Z :=
  match v with
  | VInt z => Ok z
  | VBool b => Ok (if b then 1 else 0)
  | _ => Raise TypeError
  end.

End Num.

(** ** config.py *)

Module Config.

Definition t := dict.

Definition DEFAULT_CONFIG : t :=
  [ (lit "provider", VStr (lit "anthropic"));
    (lit "model",
      VDict [ (lit "anthropic", VStr (lit "claude-sonnet-4-20250514"));
              (lit "openai", VStr (lit "gpt-4-turbo-preview"));
              (lit "ollama", VStr (lit "llama2")) ]);
    (lit "commit_types",
      VList (List.map (fun s => VStr (lit s))
               ["feat"; "fix"; "docs"; "style"; "refactor"; "perf"; "test";
                "chore"; "ci"; "build"]%string));
    (lit "max_diff_length", VInt 4000);
    (lit "temperature", VFloat Num.f0_3);
    (lit "use_toon", VBool false) ].

(** [{**DEFAULT_CONFIG, **user_config}] *)
Definition merge (base user : dict) : dict :=
  fold_left (fun acc kv => dict_set (fst kv) (snd kv) acc) user base.

(** [_load_config].  [file] is [None] when the file does not exist and
    otherwise what [yaml.safe_load] read from it: a mapping, or another
    value ([VNone] for an empty file), which
    [{**DEFAULT_CONFIG, **user_config}] refuses with TypeError. *)
Definition load_config (file : option value) : result t :=
  match file with
  | Some (VDict user_config) => Ok (merge DEFAULT_CONFIG user_config)
  | Some _ => Raise TypeError
  | None => Ok DEFAULT_CONFIG
  end.

(** [get(key, default)] *)
Definition get (c : t) (key : str) (default : value) : value :=
  match dict_get key c with
  | Some v => v
  | None => default
  end.

(** [set(key, value)] *)
Definition set (c : t) (key : str) (v : value) : t := dict_set key v c.

Definition provider (c : t) : result value := dict_index (lit "provider") c.

Definition model (c : t) : result value :=
  m <- dict_index (lit "model") c ;;
  p <- provider c ;;
  match m, p with
  | VDict d, VStr k => dict_index k d
  | VDict d, _ => Raise (KeyError [])
  | _, _ => Raise TypeError
  end.

(** The process environment, as [os.getenv] reads it. *)
Definition env := str -> option str.

Definition api_key (c : t) (e : env) : result (option str) :=
  p <- provider c ;;
  if is_str p (lit "anthropic") then Ok (e (lit "ANTHROPIC_API_KEY"))
  else if is_str p (lit "openai") then Ok (e (lit "OPENAI_API_KEY"))
  else Ok None.

Definition commit_types (c : t) : result value :=
  dict_index (lit "commit_types") c.

End Config.

(** ** Decimal text of integers *)

Module Dec.

Fixpoint uint_chars (d : Decimal.uint) : str :=
  match d with
  | Decimal.Nil => []
  | Decimal.D0 d' => 48%N :: uint_chars d'
  | Decimal.D1 d' => 49%N :: uint_chars d'
  | Decimal.D2 d' => 50%N :: uint_chars d'
  | Decimal.D3 d' => 51%N :: uint_chars d'
  | Decimal.D4 d' => 52%N :: uint_chars d'
  | Decimal.D5 d' => 53%N :: uint_chars d'
  | Decimal.D6 d' => 54%N :: uint_chars d'
  | Decimal.D7 d' => 55%N :: uint_chars d'
  | Decimal.D8 d' => 56%N :: uint_chars d'
  | Decimal.D9 d' => 57%N :: uint_chars d'
  end.

(** [str(n)] for [n >= 0] *)
Definition str_of_N (n : N) : str := uint_chars (N.to_uint n).

(** [str(z)], as an f-string renders an int *)
Definition str_of_Z (z : Z) : str :=
  if z <? 0 then 45%N :: str_of_N (Z.abs_N z) else str_of_N (Z.abs_N z).

Definition digit_val (c : char) : option Z :=
  if ((48 <=? c) && (c <=? 57))%N then Some (Z.of_N c - 48) else None.

(** Digits with single underscores between them; [prev] tells whether the
    previous character was a digit. *)
Fixpoint digits (acc : Z) (prev : bool) (s : str) : option Z :=
  match s with
  | [] => if prev then Some acc else None
  | c :: s' =>
      if (c =? 95)%N then (if prev then digits acc false s' else None)
      else match digit_val c with
           | Some d => digits (10 * acc + d) true s'
           | None => None
           end
  end.

(** [int(s)] in base 10 (ASCII digits): surrounding whitespace and one sign
    are accepted; anything else raises ValueError. *)
Definition py_int (s : str) : result Z :=
  let t := strip s in
  let r := match t with
           | 45%N :: t' => option_map Z.opp (digits 0 false t')
           | 43%N :: t' => digits 0 false t'
           | _ => digits 0 false t
           end in
  match r with
  | Some z => Ok z
  | None => Raise (ValueError s)
  end.

End Dec.

(** ** git_utils.py *)

Module GitUtils.

(** An entry of [repo.index.diff("HEAD")], as the backend reports it. *)
Record diff_item := {
  change_type : option str;
  a_path : option str;
  b_path : option str
}.

(** [{"path": ..., "type": ...}] *)
Record file_change := {
  path : option str;
  type : option str
}.

Record summary := {
  files_changed : list file_change;
  additions : Z;
  deletions : Z;
  modifications : Z
}.

(** [{"hash": ..., "message": ..., "author": ...}] *)
Record commit_record := {
  hash : str;
  message : str;
  author : str
}.

(** [x or y] on optional strings: [None] and [""] are falsy. *)
Definition or_else (x y : option str) : option str :=
  match x with
  | Some (_ :: _) => x
  | _ => y
  end.

Definition type_is (t : option str) (s : string) : bool :=
  match t with
  | Some u => Str.eqb u (lit s)
  | None => false
  end.

(** One turn of the loop of [get_diff_summary]. *)
Definition summary_step (s : summary) (item : diff_item) : summary :=
  let ct := change_type item in
  let file_path := or_else (a_path item) (b_path item) in
  let fc := files_changed s ++ [ {| path := file_path; type := ct |} ] in
  if type_is ct "A" then
    {| files_changed := fc; additions := additions s + 1;
       deletions := deletions s; modifications := modifications s |}
  else if type_is ct "D" then
    {| files_changed := fc; additions := additions s;
       deletions := deletions s + 1; modifications := modifications s |}
  else if type_is ct "M" then
    {| files_changed := fc; additions := additions s;
       deletions := deletions s; modifications := modifications s + 1 |}
  else
    {| files_changed := fc; additions := additions s;
       deletions := deletions s; modifications := modifications s |}.

Definition empty_summary : summary :=
  {| files_changed := []; additions := 0; deletions := 0; modifications := 0 |}.

Definition get_diff_summary (diff : list diff_item) : summary :=
  fold_left summary_step diff empty_summary.

(** One turn of the loop over [parts[1:]] in [get_commit_stats]. *)
Definition stats_step (total : result Z) (part : str) : result Z :=
  total_changes <- total ;;
  if contains (lit "insertion") part || contains (lit "deletion") part then
    match words (strip part) with
    | w :: _ => num <- Dec.py_int w ;; Ok (total_changes + num)
    | [] => Raise IndexError
    end
  else Ok total_changes.

(** [diff] is the index diff, [diff_text] the output of
    [git diff --cached --shortstat]. *)
Definition get_commit_stats (diff : list diff_item) (diff_text : str)
  : result (Z * Z) :=
  let files_changed := Z.of_nat (List.length diff) in
  total_changes <-
    match diff_text with
    | [] => Ok 0
    | _ => fold_left stats_step (tl (split_on 44%N diff_text)) (Ok 0)
    end ;;
  Ok (files_changed, total_changes).

End GitUtils.

(** ** llm_client.py *)

Module LLM.

Import GitUtils.

(** The SDK client objects, by the arguments they were built with. *)
Inductive handle :=
| Anthropic (api_key : option str)
| OpenAI (base_url : option str) (api_key : option str).

(** What [messages.create] / [chat.completions.create] is sent. *)
Record request := {
  rq_model : value;
  rq_max_tokens : Z;
  rq_temperature : value;
  rq_content : str
}.

(** The provider SDKs are outside the repository: [construct] is the client
    constructor ([Ok tt] when it accepts its arguments), [create] the
    completion call, answering with the texts of the content blocks or
    choices ([None] where a candidate carries no text). *)
Record sdk := {
  construct : handle -> result unit;
  create : handle -> request -> result (list (option str))
}.

Record client := {
  provider : value;
  model : value;
  client_handle : handle
}.

Definition ollama_handle : handle :=
  OpenAI (Some (lit "http://localhost:11434/v1")) (Some (lit "ollama")).

(** [LLMClient.__init__(provider)] *)
Definition init (k : sdk) (cfg : Config.t) (e : Config.env)
    (provider_arg : option str) : result client :=
  p <- match provider_arg with
       | Some (c :: r) => Ok (VStr (c :: r))
       | _ => Config.provider cfg
       end ;;
  m <- Config.model cfg ;;
  if is_str p (lit "anthropic") then
    key <- Config.api_key cfg e ;;
    _ <- construct k (Anthropic key) ;;
    Ok {| provider := p; model := m; client_handle := Anthropic key |}
  else if is_str p (lit "openai") then
    key <- Config.api_key cfg e ;;
    _ <- construct k (OpenAI None key) ;;
    Ok {| provider := p; model := m; client_handle := OpenAI None key |}
  else if is_str p (lit "ollama") then
    _ <- construct k ollama_handle ;;
    Ok {| provider := p; model := m; client_handle := ollama_handle |}
  else Raise (UnsupportedProvider p).

(** [", ".join(v)]: the elements of a list, the characters of a str or the
    keys of a dict, all of which must be strings. *)
Fixpoint all_strs (l : list value) : result (list str) :=
  match l with
  | [] => Ok []
  | VStr s :: l' => r <- all_strs l' ;; Ok (s :: r)
  | _ :: _ => Raise TypeError
  end.

Definition join_value (sep : str) (v : value) : result str :=
  match v with
  | VList l => ss <- all_strs l ;; Ok (join sep ss)
  | VStr s => Ok (join sep (List.map (fun c => [c]) s))
  | VDict d => Ok (join sep (List.map fst d))
  | _ => Raise TypeError
  end.

(** How an f-string renders an optional string. *)
Definition fmt (o : option str) : str :=
  match o with
  | Some s => s
  | None => lit "None"
  end.

Definition file_line (f : file_change) : str :=
  lit "- " ++ fmt (path f) ++ lit " (" ++ fmt (type f) ++ lit ")".

Definition commit_line (c : commit_record) : str :=
  lit "- " ++ hash c ++ lit ": " ++ message c.

Definition recent_header : str :=
  nl ++ nl ++ lit "Recent commits for context:" ++ nl.

Definition recent_context (recent_commits : list commit_record) : str :=
  match recent_commits with
  | [] => []
  | _ :: _ =>
      recent_header ++ join nl (List.map commit_line (firstn 3 recent_commits))
  end.

Definition guide_conventional (commit_types : str) : str :=
  lines [ [];
          lit "Format: <type>(<scope>): <subject>";
          [];
          lit "<body>";
          [];
          lit "Types: " ++ commit_types;
          lit "- Use feat: for new features";
          lit "- Use fix: for bug fixes";
          lit "- Use docs: for documentation";
          lit "- Use refactor: for code refactoring";
          lit "- Use test: for test changes";
          lit "- Use chore: for maintenance tasks";
          [];
          lit "Rules:";
          lit "1. Subject line max 50 chars, lowercase, no period";
          lit "2. Body wraps at 72 chars";
          lit "3. Explain WHAT and WHY, not HOW";
          lit "4. Use imperative mood (" ++ dq ++ lit "add" ++ dq ++ lit " not "
            ++ dq ++ lit "added" ++ dq ++ lit ")";
          [] ].

Definition guide_semantic : str :=
  lines [ [];
          lit "Format: <emoji> <type>: <subject>";
          [];
          lit "Examples:";
          lit "✨ feat: add user authentication";
          lit "🐛 fix: resolve memory leak in worker";
          lit "📝 docs: update API documentation";
          lit "♻️ refactor: simplify database queries";
          [] ].

Definition guide_simple : str :=
  lines [ [];
          lit "Format: <subject>";
          [];
          lit "<body>";
          [];
          lit "Keep it simple and clear. Focus on what changed and why.";
          [] ].

Definition format_guide (style : str) (commit_types : str) : str :=
  if Str.eqb style (lit "conventional") then guide_conventional commit_types
  else if Str.eqb style (lit "semantic") then guide_semantic
  else guide_simple.

(** The final f-string of [_build_prompt], hole by hole. *)
Definition render_prompt (files : str) (s : summary) (guide diff recent : str)
  : str :=
  lines [ lit "Generate a git commit message for the following changes.";
          [];
          lit "Files changed:";
          files;
          [];
          lit "Summary:";
          lit "- " ++ Dec.str_of_Z (additions s) ++ lit " file(s) added";
          lit "- " ++ Dec.str_of_Z (modifications s) ++ lit " file(s) modified";
          lit "- " ++ Dec.str_of_Z (deletions s) ++ lit " file(s) deleted";
          [];
          guide;
          [];
          lit "Git diff:";
          lit "```";
          diff;
          lit "```";
          recent;
          [];
          lit "Generate a clear, concise commit message. Return ONLY the commit message, no explanations." ].

(** [_build_prompt(diff, diff_summary, recent_commits, style)] *)
Definition _build_prompt (cfg : Config.t) (diff : str) (diff_summary : summary)
    (recent_commits : list commit_record) (style : str) : result str :=
  cts <- Config.commit_types cfg ;;
  commit_types <- join_value (lit ", ") cts ;;
  let files := join nl (List.map file_line (files_changed diff_summary)) in
  let recent := recent_context recent_commits in
  let guide := format_guide style commit_types in
  Ok (render_prompt files diff_summary guide diff recent).

Definition truncation_marker : str := nl ++ lit "... (diff truncated)".

(** Lines 52-55 of [generate_commit_message]: the diff handed on. *)
Definition truncate_diff (cfg : Config.t) (diff : str) : result str :=
  let max_length := Config.get cfg (lit "max_diff_length") (VInt 4000) in
  too_long <- Num.int_gt (Z.of_nat (List.length diff)) max_length ;;
  if too_long then
    n <- Num.as_index max_length ;;
    Ok (slice_to diff n ++ truncation_marker)
  else Ok diff.

(** Lines 52-57 of [generate_commit_message]: the prompt that is sent. *)
Definition generation_prompt (cfg : Config.t) (diff : str)
    (diff_summary : summary) (recent_commits : list commit_record)
    (style : str) : result str :=
  diff' <- truncate_diff cfg diff ;;
  _build_prompt cfg diff' diff_summary recent_commits style.

(** [response...[0]....strip()] *)
Definition first_text (response : list (option str)) : result str :=
  match response with
  | [] => Raise IndexError
  | None :: _ => Raise AttributeError
  | Some t :: _ => Ok (strip t)
  end.

(** [_generate_anthropic] and [_generate_openai] send the same request. *)
Definition _generate (k : sdk) (cfg : Config.t) (c : client) (prompt : str)
  : result str :=
  response <- create k (client_handle c)
                {| rq_model := model c;
                   rq_max_tokens := 500;
                   rq_temperature :=
                     Config.get cfg (lit "temperature") (VFloat Num.f0_3);
                   rq_content := prompt |} ;;
  first_text response.

Definition generate_commit_message (k : sdk) (cfg : Config.t) (c : client)
    (diff : str) (diff_summary : summary)
    (recent_commits : list commit_record) (style : str) : result str :=
  prompt <- generation_prompt cfg diff diff_summary recent_commits style ;;
  _generate k cfg c prompt.

Definition refine_prompt (original feedback : str) : str :=
  lines [ lit "Refine this commit message based on the feedback.";
          [];
          lit "Original message:";
          original;
          [];
          lit "Feedback:";
          feedback;
          [];
          lit "Generate the refined commit message. Return ONLY the commit message, no explanations." ].

Definition refine_message (k : sdk) (cfg : Config.t) (c : client)
    (original feedback : str) : result str :=
  _generate k cfg c (refine_prompt original feedback).

End LLM.

(** ** cli.py *)

Module Cli.

Import GitUtils.

(** What reaches the console.  [console.print] belongs to rich, which is
    not part of the repository: it is taken to print its argument and
    return.  The text is recorded as the code builds it, markup included;
    rich's own reading of that markup (a text with a closing tag that
    matches no opening one makes rich raise MarkupError) is outside the
    model, and every statement about what a command prints is about a
    text that rich renders. *)
Inductive output :=
| Menu                                   (* the five options *)
| Say (text : str)                       (* console.print of a line *)
| Panel (text : str)                     (* console.print(Panel(...)) *)
| Table (rows : list (option str * str)) (* the staged-changes table *)
| Failure (label : str) (e : exn).       (* "[red]label[/red] {e}" *)

(** The process-wide configuration and the console. *)
Record state := {
  config : Config.t;
  console : list output
}.

Definition say (o : output) (st : state) : state :=
  {| config := config st; console := console st ++ [o] |}.

Definition with_config (c : Config.t) (st : state) : state :=
  {| config := c; console := console st |}.

(** A validated answer to the "Choose" prompt, together with what the user
    types next: the lines entered before end-of-input for [Edit], the
    answer to "What would you like to change?" for [Feedback]. *)
Inductive choice :=
| Accept
| Regenerate
| Edit (lines : list str)
| Feedback (feedback : str)
| Cancel.

(** How a piece of code leaves: by returning, through [sys.exit], with an
    exception, or not yet (the menu is waiting for an answer). *)
Inductive outcome (A : Type) :=
| Return (a : A) (st : state)
| Exit (code : Z) (st : state)
| Throw (e : exn) (st : state)
| AtMenu (current_message : str) (st : state).

Arguments Return {A} a st.
Arguments Exit {A} code st.
Arguments Throw {A} e st.
Arguments AtMenu {A} current_message st.

(** *** The Regenerate branch, statement by statement *)

(** Lines 234-235: read the temperature, write the raised one. *)
Definition regen_enter (st : state) : result (value * state) :=
  let original_temp :=
    Config.get (config st) (lit "temperature") (VFloat Num.f0_3) in
  raised <- Num.add_float original_temp Num.f0_2 ;;
  Ok (original_temp,
      with_config (Config.set (config st) (lit "temperature")
                     (VFloat (Num.min_float raised Num.f1_0))) st).

(** Line 238: all that happens under the raised temperature. *)
Definition regen_body (st : state) : state :=
  say (Say (lit "[yellow]Feature coming soon: regeneration with variation[/yellow]")) st.

(** Line 240: write the saved temperature back. *)
Definition regen_exit (original_temp : value) (st : state) : state :=
  with_config (Config.set (config st) (lit "temperature") original_temp) st.

Definition regenerate (st : state) : result state :=
  match regen_enter st with
  | Ok (original_temp, st1) => Ok (regen_exit original_temp (regen_body st1))
  | Raise e => Raise e
  end.

(** *** The Edit and Feedback branches *)

Definition edit (lines : list str) (st : state) : str * state :=
  let current_message := join nl lines in
  (current_message,
   say (Panel current_message)
     (say (Say (nl ++ lit "[bold green]Updated message:[/bold green]")) st)).

Definition refine (k : LLM.sdk) (llm : LLM.client) (current_message : str)
    (feedback : str) (st : state) : result (str * state) :=
  m <- LLM.refine_message k (config st) llm current_message feedback ;;
  Ok (m, say (Panel m)
           (say (Say (nl ++ lit "[bold green]Refined message:[/bold green]")) st)).

(** [_interactive_edit(message, llm, dry_run)], driven by the answers the
    user gives. *)
Fixpoint _interactive_edit (k : LLM.sdk) (llm : LLM.client)
    (current_message : str) (answers : list choice) (st : state)
  : outcome str :=
  match answers with
  | [] => AtMenu current_message (say Menu st)
  | a :: rest =>
      let st := say Menu st in
      match a with
      | Accept => Return current_message st
      | Regenerate =>
          match regenerate st with
          | Ok st' => _interactive_edit k llm current_message rest st'
          | Raise e => Throw e st
          end
      | Edit lines =>
          let (m, st') := edit lines st in
          _interactive_edit k llm m rest st'
      | Feedback feedback =>
          match refine k llm current_message feedback st with
          | Ok (m, st') => _interactive_edit k llm m rest st'
          | Raise e => Throw e st
          end
      | Cancel => Exit 0 st
      end
  end.

(** *** The commit command *)

(** The repository as the backend shows it. *)
Record repo := {
  index_diff : list diff_item;          (* repo.index.diff("HEAD") *)
  staged_diff : str;                    (* git diff --cached --no-color *)
  shortstat : str;                      (* git diff --cached --shortstat *)
  recent : list commit_record;          (* iter_commits(max_count=5) *)
  index_commit : str -> result str      (* repo.index.commit(m).hexsha *)
}.

Definition has_staged_changes (r : repo) : bool :=
  match index_diff r with
  | [] => false
  | _ :: _ => true
  end.

Definition get_staged_diff (r : repo) : result str :=
  if has_staged_changes r then Ok (staged_diff r)
  else Raise (GitError (lit "No staged changes found. Use 'git add' to stage changes.")).

Definition status_name (t : option str) : option str :=
  if type_is t "A" then Some (lit "Added")
  else if type_is t "M" then Some (lit "Modified")
  else if type_is t "D" then Some (lit "Deleted")
  else if type_is t "R" then Some (lit "Renamed")
  else t.

Definition _show_staged_changes (r : repo) (st : state) : result state :=
  let summary := get_diff_summary (index_diff r) in
  stats <- get_commit_stats (index_diff r) (shortstat r) ;;
  let rows :=
    List.map (fun f => (path f, LLM.fmt (status_name (type f))))
      (files_changed summary) in
  Ok (say (Say (nl ++ lit "[dim]" ++ Dec.str_of_Z (fst stats) ++ lit " file(s), "
                  ++ Dec.str_of_Z (snd stats) ++ lit " change(s)[/dim]"))
        (say (Table rows)
           (say (Say (nl ++ lit "[bold]Staged Changes:[/bold]")) st))).

(** How the command line was given and answered. *)
Record commit_args := {
  style : str;
  dry_run : bool;
  no_edit : bool;
  provider : option str;
  answers : list choice;                (* to the options menu *)
  confirm : bool                        (* to "Create commit with this message?" *)
}.

(** Lines 68-81 of [commit]: the interactive loop unless [--no-edit], then
    the commit unless [--dry-run]; the result is the hash of the commit
    that was created, if one was. *)
Definition commit_finish (k : LLM.sdk) (llm : LLM.client) (r : repo)
    (a : commit_args) (message : str) (st : state) : outcome (option str) :=
  let edited :=
    if no_edit a then Return message st
    else _interactive_edit k llm message (answers a) st in
  match edited with
  | Return message st =>
      if dry_run a then
        Return None
          (say (Say (lit "Message copied to clipboard (if available)"))
             (say (Say (nl ++ lit "[yellow]Dry run - no commit created.[/yellow]")) st))
      else if confirm a then
        match index_commit r message with
        | Ok commit_hash =>
            Return (Some commit_hash)
              (say (Say (nl ++ lit "[green]✓ Commit created:[/green] "
                           ++ slice_to commit_hash 7)) st)
        | Raise x => Throw x st
        end
      else Return None (say (Say (lit "[yellow]Commit cancelled.[/yellow]")) st)
  | Exit code st => Exit code st
  | Throw x st => Throw x st
  | AtMenu m st => AtMenu m st
  end.

(** The body of the [try] in [commit]. *)
Definition commit_body (k : LLM.sdk) (e : Config.env) (r : option repo)
    (a : commit_args) (st : state) : outcome (option str) :=
  match r with
  | None => Throw (GitError (lit "Not a git repository")) st
  | Some r =>
      let st :=
        match provider a with
        | Some (c :: p) =>
            with_config (Config.set (config st) (lit "provider") (VStr (c :: p))) st
        | _ => st
        end in
      match LLM.init k (config st) e None with
      | Raise x => Throw x st
      | Ok llm =>
          if negb (has_staged_changes r) then
            Exit 1 (say (Say (lit "Use [cyan]git add[/cyan] to stage your changes first."))
                      (say (Say (lit "[red]No staged changes found.[/red]")) st))
          else
            match _show_staged_changes r st with
            | Raise x => Throw x st
            | Ok st =>
                match get_staged_diff r with
                | Raise x => Throw x st
                | Ok diff =>
                    let diff_summary := get_diff_summary (index_diff r) in
                    match LLM.generate_commit_message k (config st) llm diff
                            diff_summary (recent r) (style a) with
                    | Raise x => Throw x st
                    | Ok message =>
                        commit_finish k llm r a message
                          (say (Panel message)
                             (say (Say (nl ++ lit "[bold green]Generated commit message:[/bold green]")) st))
                    end
                end
            end
      end
  end.

(** The two [except] clauses of [commit]: report, then [sys.exit(1)]. *)
Definition catch {A : Type} (o : outcome A) : outcome A :=
  match o with
  | Throw (GitError m) st =>
      Exit 1 (say (Failure (lit "Git Error:") (GitError m)) st)
  | Throw x st => Exit 1 (say (Failure (lit "Error:") x) st)
  | other => other
  end.

Definition commit (k : LLM.sdk) (e : Config.env) (r : option repo)
    (a : commit_args) (st : state) : outcome (option str) :=
  catch (commit_body k e r a st).

(** *** config-set and config-get *)

(** The walk of [config_set] along [parts]; a step into a value that is not
    a dict ends in TypeError. *)
Fixpoint set_path (parts : list str) (v : value) (current : dict)
  : result dict :=
  match parts with
  | [] => Ok current
  | [last] => Ok (dict_set last v current)
  | part :: rest =>
      let current :=
        match dict_get part current with
        | None => dict_set part (VDict []) current
        | Some _ => current
        end in
      match dict_get part current with
      | Some (VDict sub) =>
          sub' <- set_path rest v sub ;;
          Ok (dict_set part (VDict sub') current)
      | _ => Raise TypeError
      end
  end.

(** The body of the [try] in [config_set], up to [save_config]. *)
Definition config_set_body (cfg : Config.t) (key value : str)
  : result Config.t :=
  if contains (lit ".") key
  then set_path (split_on 46%N key) (VStr value) cfg
  else Ok (Config.set cfg key (VStr value)).

(** [config_set]: the configuration in memory afterwards, the file it
    wrote (if any) and the exit status. *)
Definition config_set (cfg : Config.t) (key value : str)
  : Config.t * option dict * Z :=
  match config_set_body cfg key value with
  | Ok cfg' => (cfg', Some cfg', 0)
  | Raise _ => (cfg, None, 1)
  end.

Inductive shown :=
| One (key : str) (v : value)            (* "{key}: {value}" *)
| Rows (rows : list (str * value)).      (* the table *)

Definition config_rows (cfg : Config.t) : list (str * value) :=
  flat_map (fun kv =>
              match snd kv with
              | VDict d =>
                  List.map (fun sub => (fst kv ++ lit "." ++ fst sub, snd sub)) d
              | v => [(fst kv, v)]
              end) cfg.

(** [config_get(key)] *)
Definition config_get (cfg : Config.t) (key : option str) : shown :=
  match key with
  | Some (c :: k) => One (c :: k) (Config.get cfg (c :: k) VNone)
  | _ => Rows (config_rows cfg)
  end.

End Cli.

(** ** The sections of the prompt *)

Module Layout.

Import GitUtils.

(** The text of [render_prompt] around its holes: what precedes the format
    guide, what separates the guide from the diff, what closes the fenced
    block, and the closing instruction. *)
Definition intro (files : str) (s : summary) : str :=
  lines [ lit "Generate a git commit message for the following changes.";
          [];
          lit "Files changed:";
          files;
          [];
          lit "Summary:";
          lit "- " ++ Dec.str_of_Z (additions s) ++ lit " file(s) added";
          lit "- " ++ Dec.str_of_Z (modifications s) ++ lit " file(s) modified";
          lit "- " ++ Dec.str_of_Z (deletions s) ++ lit " file(s) deleted";
          [] ] ++ nl.

Definition fence_open : str :=
  nl ++ nl ++ lit "Git diff:" ++ nl ++ lit "```" ++ nl.

Definition fence_close : str := nl ++ lit "```" ++ nl.

Definition closing : str :=
  nl ++ nl ++ lit "Generate a clear, concise commit message. Return ONLY the commit message, no explanations.".

(** Everything before the diff, everything after it. *)
Definition before_diff (files : str) (s : summary) (guide : str) : str :=
  intro files s ++ guide ++ fence_open.

Definition after_diff (recent : str) : str :=
  fence_close ++ recent ++ closing.

Definition files_text (s : summary) : str :=
  join nl (List.map LLM.file_line (files_changed s)).

Definition has_non_ascii (s : str) : bool := existsb non_ascii s.

End Layout.


(** ** Statements read off the specification *)

Module Stated.

Import GitUtils.

(** The truncation as the specification words it: the kept prefix
    immediately followed by the marker text. *)
Definition marker_as_stated : str := lit "... (diff truncated)".

Definition truncation_as_stated (max_diff_length : Z) (diff prompt : str)
  : Prop :=
  contains (firstn (Z.to_nat max_diff_length) diff ++ marker_as_stated) prompt
  = true.

(** The invariant of the diff summary as the specification words it. *)
Definition summary_invariant_as_stated (s : summary) : Prop :=
  additions s + deletions s + modifications s
  = Z.of_nat (List.length (files_changed s)).

End Stated.

(** ** Sample inputs *)

Module Sample.

Import GitUtils.

Definition cfg_max3 : Config.t :=
  Config.set Config.DEFAULT_CONFIG (lit "max_diff_length") (VInt 3).

Definition cfg_feat_fix : Config.t :=
  Config.set Config.DEFAULT_CONFIG (lit "commit_types")
    (VList [VStr (lit "feat"); VStr (lit "fix")]).

Definition api_py_added : summary :=
  {| files_changed := [ {| path := Some (lit "api.py"); type := Some (lit "A") |} ];
     additions := 1; deletions := 0; modifications := 0 |}.

Definition commit_n (h m : string) : commit_record :=
  {| hash := lit h; message := lit m; author := lit "dev" |}.

Definition four_commits : list commit_record :=
  [ commit_n "aaaaaa1" "fourth"; commit_n "aaaaaa2" "third";
    commit_n "aaaaaa3" "second"; commit_n "aaaaaa4" "first" ].

Definition renamed_item : diff_item :=
  {| change_type := Some (lit "R"); a_path := Some (lit "old.py");
     b_path := Some (lit "new.py") |}.

Definition modified_item : diff_item :=
  {| change_type := Some (lit "M"); a_path := Some (lit "test.txt");
     b_path := Some (lit "test.txt") |}.

Definition no_env : Config.env := fun _ => None.

(** The configuration after [config-set model.anthropic x]. *)
Definition cfg_model_x : Config.t :=
  Config.set Config.DEFAULT_CONFIG (lit "model")
    (VDict [ (lit "anthropic", VStr (lit "x"));
             (lit "openai", VStr (lit "gpt-4-turbo-preview"));
             (lit "ollama", VStr (lit "llama2")) ]).

End Sample.


(** ** Vocabulary for the diff summary *)

Module SummarySpec.

Import GitUtils.

(** The change types that have a counter. *)
Definition counted (i : diff_item) : bool :=
  type_is (change_type i) "A" || type_is (change_type i) "D"
  || type_is (change_type i) "M".

(** The entries that have none (renames, copies, type changes, ...). *)
Definition uncounted (diff : list diff_item) : list diff_item :=
  filter (fun i => negb (counted i)) diff.

Definition total (s : summary) : Z :=
  additions s + deletions s + modifications s.

(** What [get_diff_summary] appends for an entry. *)
Definition entry (i : diff_item) : file_change :=
  {| path := or_else (a_path i) (b_path i); type := change_type i |}.

End SummarySpec.


(** ** The shortstat line *)

Module Shortstat.

(** The line [git diff --shortstat] prints, as the comment in
    [get_commit_stats] shows it:
    " 2 files changed, 10 insertions(+), 3 deletions(-)".
    Either of the two counts may be left out. *)
Definition plural (n : N) : str := if (n =? 1)%N then [] else lit "s".

Definition count_part (n : N) (noun sign : string) : str :=
  lit ", " ++ Dec.str_of_N n ++ lit " " ++ lit noun ++ plural n ++ lit sign.

Definition opt_part (n : option N) (noun sign : string) : str :=
  match n with
  | Some k => count_part k noun sign
  | None => []
  end.

Definition line (files : N) (insertions deletions : option N) : str :=
  lit " " ++ Dec.str_of_N files ++ lit " file" ++ plural files
    ++ lit " changed"
    ++ opt_part insertions "insertion" "(+)"
    ++ opt_part deletions "deletion" "(-)".

(** A count as [split(",")] hands it to the loop: without its comma. *)
Definition part (n : N) (noun sign : string) : str :=
  32%N :: Dec.str_of_N n ++ 32%N :: lit noun ++ plural n ++ lit sign.

(** The line as [split(",")] cuts it. *)
Definition first_part (files : N) : str :=
  lit " " ++ Dec.str_of_N files ++ lit " file" ++ plural files
    ++ lit " changed".

Definition opt_parts (n : option N) (noun sign : string) : list str :=
  match n with
  | Some k => [part k noun sign]
  | None => []
  end.

Definition count_of (n : option N) : Z :=
  match n with
  | Some k => Z.of_N k
  | None => 0
  end.

(** Classes of characters used to describe the line. *)
Definition is_digit (c : char) : bool := ((48 <=? c) && (c <=? 57))%N.

Definition no_comma (s : str) : bool :=
  forallb (fun c => negb (char_eqb c 44%N)) s.

Definition no_space (s : str) : bool :=
  forallb (fun c => negb (is_space c)) s.

End Shortstat.


(** ** Sample sessions *)

Module Session.

Import GitUtils.

(** A provider that cannot be reached, and one that always answers. *)
Definition sdk_down : LLM.sdk :=
  {| LLM.construct := fun _ => Ok tt;
     LLM.create := fun _ _ => Raise (SdkError (lit "Connection error.")) |}.

Definition sdk_up : LLM.sdk :=
  {| LLM.construct := fun _ => Ok tt;
     LLM.create := fun _ _ => Ok [Some (lit "fix: handle empty input")] |}.

Definition llm : LLM.client :=
  {| LLM.provider := VStr (lit "anthropic");
     LLM.model := VStr (lit "claude-sonnet-4-20250514");
     LLM.client_handle := LLM.Anthropic (Some (lit "sk-test")) |}.

Definition start : Cli.state :=
  {| Cli.config := Config.DEFAULT_CONFIG; Cli.console := [] |}.

Definition full_hash : str := lit "0123456789abcdef0123456789abcdef01234567".

Definition repo_one : Cli.repo :=
  {| Cli.index_diff := [Sample.modified_item];
     Cli.staged_diff := lit "+x";
     Cli.shortstat := lit " 1 file changed, 1 insertion(+)";
     Cli.recent := [];
     Cli.index_commit := fun _ => Ok full_hash |}.

Definition args (answers : list Cli.choice) : Cli.commit_args :=
  {| Cli.style := lit "conventional";
     Cli.dry_run := false;
     Cli.no_edit := false;
     Cli.provider := None;
     Cli.answers := answers;
     Cli.confirm := true |}.

(** Temperature 0.9, as [config.yaml] may set it. *)
Definition f0_9 : float := 0x1.ccccccccccccdp-1%float.

Definition warm : Cli.state :=
  {| Cli.config :=
       Config.set Config.DEFAULT_CONFIG (lit "temperature") (VFloat f0_9);
     Cli.console := [] |}.

(** Temperature as [config-set temperature 0.5] leaves it: a string. *)
Definition stringly : Cli.state :=
  {| Cli.config :=
       Config.set Config.DEFAULT_CONFIG (lit "temperature") (VStr (lit "0.5"));
     Cli.console := [] |}.

(** The session as the specification words the failure of a refinement:
    back at the menu with the message it had. *)
Definition back_at_menu_as_stated (o : Cli.outcome str) (message : str) : Prop :=
  exists st, o = Cli.AtMenu message st.

End Session.


(** ** Credentials and dotted keys, as the specification words them *)

Module StatedCli.

(** A provider SDK that insists on a key when the client is built. *)
Definition sdk_strict : LLM.sdk :=
  {| LLM.construct :=
       fun h =>
         match h with
         | LLM.Anthropic None | LLM.OpenAI _ None =>
             Raise (SdkError (lit "The api_key client option must be set"))
         | _ => Ok tt
         end;
     LLM.create := fun _ _ => Ok [Some (lit "fix: handle empty input")] |}.


(** "config-get with the key retrieves the value that config-set stored". *)
Definition get_retrieves_as_stated (cfg : Config.t) (key value : str) : Prop :=
  let '(cfg', _, _) := Cli.config_set cfg key value in
  Cli.config_get cfg' (Some key) = Cli.One key (VStr value).

Definition no_dot (s : str) : bool :=
  forallb (fun c => negb (char_eqb c 46%N)) s.

End StatedCli.


(** ** The rest of git_utils.py, cli.py and demo.py *)

Module Rest.

Import GitUtils Cli.

(** [get_staged_files] *)
Definition get_staged_files (diff : list diff_item) : list (option str) :=
  List.map a_path diff.

(** A commit as [repo.iter_commits] yields it. *)
Record raw_commit := {
  hexsha : str;
  raw_message : str;
  author_name : str
}.

Definition record_of (c : raw_commit) : commit_record :=
  {| hash := slice_to (hexsha c) 7;
     message := strip (raw_message c);
     author := author_name c |}.

(** [get_recent_commits(count)]: [iter_commits] is the backend's
    [repo.iter_commits(max_count=...)]. *)
Definition get_recent_commits (iter_commits : Z -> list raw_commit)
    (count : Z) : list commit_record :=
  List.map record_of (iter_commits count).

(** [status]: only GitError is caught. *)
Definition status (r : option repo) (st : state) : outcome unit :=
  match r with
  | None =>
      Exit 1 (say (Failure (lit "Git Error:")
                     (GitError (lit "Not a git repository"))) st)
  | Some r =>
      match _show_staged_changes r st with
      | Ok st' => Return tt st'
      | Raise (GitError m) =>
          Exit 1 (say (Failure (lit "Git Error:") (GitError m)) st)
      | Raise x => Throw x st
      end
  end.

(** demo.py, [show_staged_changes]: the status shown for a change type. *)
Definition demo_status_name (t : option str) : option str :=
  if type_is t "A" then Some (lit "Added")
  else if type_is t "M" then Some (lit "Modified")
  else if type_is t "D" then Some (lit "Deleted")
  else t.

Definition demo_rows (diff : list diff_item) : list (option str * option str) :=
  List.map (fun f => (path f, demo_status_name (type f)))
    (files_changed (get_diff_summary diff)).

(** The rows of the table of [_show_staged_changes]. *)
Definition cli_rows (diff : list diff_item) : list (option str * str) :=
  List.map (fun f => (path f, LLM.fmt (status_name (type f))))
    (files_changed (get_diff_summary diff)).

(** demo.py, [show_commit_history]: a row of the table. *)
Definition history_row (c : raw_commit) : str * str :=
  (slice_to (hexsha c) 7, hd [] (split_on 10%N (raw_message c))).

(** Nested lookup [d[p1][p2]...[pn]]. *)
Fixpoint get_path (parts : list str) (d : dict) : option value :=
  match parts with
  | [] => None
  | [last] => dict_get last d
  | part :: rest =>
      match dict_get part d with
      | Some (VDict sub) => get_path rest sub
      | _ => None
      end
  end.

(** The walk along [parts] meets a value that is bound but is no dict. *)
Fixpoint blocked (parts : list str) (d : dict) : bool :=
  match parts with
  | [] => false
  | [_] => false
  | part :: rest =>
      match dict_get part d with
      | Some (VDict sub) => blocked rest sub
      | Some _ => true
      | None => false
      end
  end.

(** The state a piece of code leaves behind. *)
Definition final_state {A : Type} (o : outcome A) : state :=
  match o with
  | Return _ st | Exit _ st | Throw _ st | AtMenu _ st => st
  end.

(** The loop is over (it does not wait for another answer). *)
Definition finished {A : Type} (o : outcome A) : bool :=
  match o with
  | AtMenu _ _ => false
  | _ => true
  end.

(** [s] has a character that is not whitespace. *)
Definition has_ns (s : str) : bool :=
  existsb (fun c => negb (is_space c)) s.

(** [s] is empty or neither starts nor ends with whitespace. *)
Definition stripped (s : str) : Prop :=
  match s with
  | [] => True
  | c :: _ => is_space c = false /\ is_space (last s c) = false
  end.

Definition has_type (c : string) (i : diff_item) : bool :=
  type_is (change_type i) c.

Definition how_many (c : string) (diff : list diff_item) : Z :=
  Z.of_nat (List.length (filter (has_type c) diff)).

Definition keys (d : dict) : list str := List.map fst d.

End Rest.


(** ** Sample environments *)

Module Env.

(** Only the Anthropic key is set. *)
Definition anthropic_only : Config.env :=
  fun name =>
    if Str.eqb name (lit "ANTHROPIC_API_KEY") then Some (lit "sk-ant")
    else None.

Definition cfg_provider (p : string) : Config.t :=
  Config.set Config.DEFAULT_CONFIG (lit "provider") (VStr (lit p)).

End Env.


(** ** The setup wizard *)

Module Setup.

Import Cli.

(** The state [commit] goes on with after [--provider]. *)
Definition with_provider (a : commit_args) (st : state) : state :=
  match provider a with
  | Some (c :: p) =>
      with_config (Config.set (config st) (lit "provider") (VStr (c :: p))) st
  | _ => st
  end.

(** [setup].  An answer is a choice the prompt accepted, or [None] when
    the user took the default.  [title] is [str.title] and [config_path]
    the path of the file; the result is the file that was written. *)
Definition setup (title : str -> str) (config_path : str)
    (provider_answer style_answer : option str) (st : state)
  : outcome dict :=
  let st :=
    say (Say (lit "  [cyan]ollama[/cyan] - Local models"))
      (say (Say (lit "  [cyan]openai[/cyan] - GPT models"))
         (say (Say (lit "  [cyan]anthropic[/cyan] - Claude (recommended)"))
            (say (Say (nl ++ lit "[bold]1. Choose LLM Provider:[/bold]"))
               (say (Panel (lit "[bold cyan]git-ai Setup Wizard[/bold cyan]"
                              ++ nl
                              ++ lit "Let's configure your AI commit message generator!"))
                  st)))) in
  match Config.provider (config st) with
  | Raise x => Throw x st
  | Ok default_provider =>
      let provider :=
        match provider_answer with
        | Some p => VStr p
        | None => default_provider
        end in
      let st := with_config (Config.set (config st) (lit "provider") provider) st in
      let helped :=
        if is_str provider (lit "ollama") then Ok st
        else
          match provider with
          | VStr p =>
              Ok (say (Say (lit "  [cyan]export "
                              ++ (if Str.eqb p (lit "anthropic")
                                  then lit "ANTHROPIC_API_KEY"
                                  else lit "OPENAI_API_KEY")
                              ++ lit "=your-key-here[/cyan]"))
                    (say (Say (lit "Set it in your environment:"))
                       (say (Say (lit "Get your key from: "
                                    ++ (if Str.eqb p (lit "anthropic")
                                        then lit "https://console.anthropic.com"
                                        else lit "https://platform.openai.com")))
                          (say (Say (nl ++ lit "[bold]2. " ++ title p
                                       ++ lit " API Key:[/bold]")) st))))
          | _ => Raise AttributeError
          end in
      match helped with
      | Raise x => Throw x st
      | Ok st =>
          let st := say (Say (nl ++ lit "[bold]3. Default Commit Style:[/bold]")) st in
          let style :=
            match style_answer with
            | Some s => s
            | None => lit "conventional"
            end in
          let cfg := Config.set (config st) (lit "default_style") (VStr style) in
          Return cfg
            (say (Say (lit "Config saved to: " ++ config_path))
               (say (Say (nl ++ lit "[green]✓ Setup complete![/green]"))
                  (with_config cfg st)))
      end
  end.

End Setup.


(** * Properties *)

(** ** Strings and dictionaries *)

Module StrFacts.

Lemma char_eqb_refl (c : char) : char_eqb c c = true.
Proof. apply N.eqb_refl. Qed.

Lemma eqb_eq (s t : str) : Str.eqb s t = true <-> s = t.
Proof.
  revert t; induction s as [|a s IH]; intros [|b t]; simpl; split;
    try congruence; try reflexivity.
  - intros H; apply andb_true_iff in H as [Hc Hs].
    apply N.eqb_eq in Hc; apply IH in Hs; congruence.
  - intros H; injection H as -> ->.
    rewrite char_eqb_refl; simpl; apply IH; reflexivity.
Qed.

Lemma eqb_refl (s : str) : Str.eqb s s = true.
Proof. apply eqb_eq; reflexivity. Qed.

Lemma eqb_neq (s t : str) : s <> t -> Str.eqb s t = false.
Proof.
  intros H; destruct (Str.eqb s t) eqn:E; [|reflexivity].
  apply eqb_eq in E; contradiction.
Qed.

Lemma starts_with_app (p s : str) : starts_with p (p ++ s) = true.
Proof.
  induction p as [|a p IH]; simpl; [reflexivity|].
  rewrite char_eqb_refl; exact IH.
Qed.

Lemma starts_with_inv (p s : str) :
  starts_with p s = true -> exists r, s = p ++ r.
Proof.
  revert s; induction p as [|a p IH]; intros s H.
  - exists s; reflexivity.
  - destruct s as [|b s]; simpl in H; [discriminate|].
    apply andb_true_iff in H as [Hc Hs].
    apply N.eqb_eq in Hc; subst b.
    destruct (IH _ Hs) as [r ->]; exists r; reflexivity.
Qed.

(** [needle in hay] holds exactly when [hay] has [needle] as a factor. *)
Lemma contains_prefix (needle hay : str) :
  starts_with needle hay = true -> contains needle hay = true.
Proof. intros H; destruct hay; simpl; rewrite H; reflexivity. Qed.

Lemma contains_intro (needle a b : str) :
  contains needle (a ++ needle ++ b) = true.
Proof.
  induction a as [|c a IH]; simpl.
  - apply contains_prefix, starts_with_app.
  - rewrite IH; apply orb_true_r.
Qed.

Lemma contains_inv (needle hay : str) :
  contains needle hay = true -> exists a b, hay = a ++ needle ++ b.
Proof.
  induction hay as [|c hay IH]; simpl; intros H.
  - rewrite orb_false_r in H; destruct needle; [|discriminate].
    exists [], []; reflexivity.
  - apply orb_true_iff in H as [H|H].
    + destruct (starts_with_inv _ _ H) as [r Hr].
      exists [], r; exact Hr.
    + destruct (IH H) as (a & b & ->).
      exists (c :: a), b; reflexivity.
Qed.

Lemma join_two_or_more (sep x y : str) (l : list str) :
  join sep (x :: y :: l) = x ++ sep ++ join sep (y :: l).
Proof. reflexivity. Qed.

Lemma join_app (sep : str) (a b : list str) :
  a <> [] -> b <> [] -> join sep (a ++ b) = join sep a ++ sep ++ join sep b.
Proof.
  intros Ha Hb; induction a as [|x a IH]; [contradiction|].
  destruct a as [|y a].
  - destruct b; [contradiction|]; reflexivity.
  - change ((x :: y :: a) ++ b) with (x :: y :: (a ++ b)).
    rewrite !join_two_or_more.
    change (y :: a ++ b) with ((y :: a) ++ b).
    rewrite IH by discriminate.
    rewrite <- !List.app_assoc; reflexivity.
Qed.

Lemma dict_get_set_same (k : str) (v : value) (d : dict) :
  dict_get k (dict_set k v d) = Some v.
Proof.
  induction d as [|[k' v'] d IH]; simpl.
  - rewrite eqb_refl; reflexivity.
  - destruct (Str.eqb k k') eqn:E; simpl.
    + rewrite eqb_refl; reflexivity.
    + rewrite E; exact IH.
Qed.

Lemma dict_get_set_other (k k' : str) (v : value) (d : dict) :
  k <> k' -> dict_get k (dict_set k' v d) = dict_get k d.
Proof.
  intros Hne; induction d as [|[k0 v0] d IH]; simpl.
  - rewrite eqb_neq by exact Hne; reflexivity.
  - destruct (Str.eqb k' k0) eqn:E; simpl.
    + apply eqb_eq in E; subst k0.
      rewrite eqb_neq by exact Hne; reflexivity.
    + destruct (Str.eqb k k0); [reflexivity|exact IH].
Qed.

End StrFacts.

Import StrFacts.

Example lit_ascii : lit "a.b" = [97; 46; 98]%N.
Proof. reflexivity. Qed.

Example lit_sparkles : lit "✨ feat" = [10024; 32; 102; 101; 97; 116]%N.
Proof. reflexivity. Qed.

Example lit_recycle : lit "♻️" = [9851; 65039]%N.
Proof. reflexivity. Qed.

Example split_on_ex :
  split_on 44%N (lit " 2 files changed, 10 insertions(+), 3 deletions(-)")
  = [lit " 2 files changed"; lit " 10 insertions(+)"; lit " 3 deletions(-)"].
Proof. reflexivity. Qed.

Example words_ex :
  words (lit "  10   insertions(+) ") = [lit "10"; lit "insertions(+)"].
Proof. reflexivity. Qed.

Example slice_neg : slice_to (lit "abcdef") (-2) = lit "abcd".
Proof. reflexivity. Qed.

Example float_sum : Num.add_float (VFloat Num.f0_3) Num.f0_2 = Ok Num.f0_5.
Proof. reflexivity. Qed.

Example float_of_int : Num.add_float (VInt 1) Num.f0_2 = Ok 0x1.3333333333333p+0%float.
Proof. reflexivity. Qed.

(** ** The prompt *)

Module PromptFacts.

Import GitUtils LLM Layout.

Lemma render_prompt_sections (files : str) (s : summary)
    (guide diff recent : str) :
  render_prompt files s guide diff recent
  = intro files s ++ guide ++ fence_open ++ diff ++ fence_close ++ recent
      ++ closing.
Proof.
  unfold render_prompt, intro, fence_open, fence_close, closing, lines.
  cbn [join].
  repeat rewrite <- List.app_assoc.
  rewrite !List.app_nil_l.
  reflexivity.
Qed.

Lemma render_prompt_around_diff (files : str) (s : summary)
    (guide diff recent : str) :
  render_prompt files s guide diff recent
  = before_diff files s guide ++ diff ++ after_diff recent.
Proof.
  rewrite render_prompt_sections; unfold before_diff, after_diff.
  repeat rewrite <- List.app_assoc; reflexivity.
Qed.

Lemma slice_to_nonneg (s : str) (n : Z) :
  0 <= n -> slice_to s n = firstn (Z.to_nat n) s.
Proof.
  intros H; unfold slice_to.
  destruct (Z.ltb_spec n 0); [lia|reflexivity].
Qed.

Lemma truncate_diff_int (cfg : Config.t) (diff : str) (m : Z) :
  Config.get cfg (lit "max_diff_length") (VInt 4000) = VInt m ->
  truncate_diff cfg diff
  = Ok (if m <? Z.of_nat (List.length diff)
        then slice_to diff m ++ truncation_marker
        else diff).
Proof.
  intros H; unfold truncate_diff; rewrite H; simpl.
  destruct (m <? Z.of_nat (List.length diff)); reflexivity.
Qed.

Lemma _build_prompt_ok (cfg : Config.t) (diff : str) (s : summary)
    (commits : list commit_record) (style : str) (tv : value) (types : str) :
  Config.commit_types cfg = Ok tv ->
  join_value (lit ", ") tv = Ok types ->
  _build_prompt cfg diff s commits style
  = Ok (before_diff (files_text s) s (format_guide style types) ++ diff
          ++ after_diff (recent_context commits)).
Proof.
  intros Ht Hj; unfold _build_prompt; rewrite Ht; simpl; rewrite Hj; simpl.
  rewrite render_prompt_around_diff; reflexivity.
Qed.

(** C1 (as amended).  With a non-negative integer [max_diff_length]: a diff
    no longer than the bound stands verbatim between the opening and the
    closing fence; a longer one is replaced there by its first
    [max_diff_length] characters, a newline and the text
    "... (diff truncated)"; nothing else of the prompt depends on the diff,
    so the cut-off remainder is nowhere in it. *)
Theorem generation_prompt_diff_block (cfg : Config.t) (diff : str)
    (s : summary) (commits : list commit_record) (style : str)
    (m : Z) (tv : value) (types : str) :
  Config.get cfg (lit "max_diff_length") (VInt 4000) = VInt m ->
  0 <= m ->
  Config.commit_types cfg = Ok tv ->
  join_value (lit ", ") tv = Ok types ->
  let before := before_diff (files_text s) s (format_guide style types) in
  let after := after_diff (recent_context commits) in
  (Z.of_nat (List.length diff) <= m ->
     generation_prompt cfg diff s commits style
     = Ok (before ++ diff ++ after))
  /\ (m < Z.of_nat (List.length diff) ->
        generation_prompt cfg diff s commits style
        = Ok (before ++ (firstn (Z.to_nat m) diff ++ nl
                           ++ lit "... (diff truncated)") ++ after))
  /\ (forall diff2 : str,
        m < Z.of_nat (List.length diff) ->
        m < Z.of_nat (List.length diff2) ->
        firstn (Z.to_nat m) diff2 = firstn (Z.to_nat m) diff ->
        generation_prompt cfg diff2 s commits style
        = generation_prompt cfg diff s commits style).
Proof.
  intros Hm Hpos Ht Hj before after.
  assert (Hlong : forall d, m < Z.of_nat (List.length d) ->
            generation_prompt cfg d s commits style
            = Ok (before ++ (firstn (Z.to_nat m) d ++ nl
                               ++ lit "... (diff truncated)") ++ after)).
  { intros d Hd; unfold generation_prompt.
    rewrite (truncate_diff_int _ _ _ Hm).
    destruct (Z.ltb_spec m (Z.of_nat (List.length d))); [|lia].
    simpl bind.
    rewrite (_build_prompt_ok _ _ _ _ _ _ _ Ht Hj).
    rewrite slice_to_nonneg by exact Hpos.
    reflexivity. }
  split; [|split].
  - intros Hd; unfold generation_prompt.
    rewrite (truncate_diff_int _ _ _ Hm).
    destruct (Z.ltb_spec m (Z.of_nat (List.length diff))); [lia|].
    simpl bind.
    apply (_build_prompt_ok _ _ _ _ _ _ _ Ht Hj).
  - apply Hlong.
  - intros diff2 H1 H2 Heq.
    rewrite (Hlong _ H1), (Hlong _ H2), Heq; reflexivity.
Qed.

Lemma generation_prompt_diff_block_witness :
  generation_prompt Sample.cfg_max3 (lit "abcdef") Sample.api_py_added []
    (lit "simple")
  = Ok (before_diff (files_text Sample.api_py_added) Sample.api_py_added
          guide_simple
        ++ (lit "abc" ++ nl ++ lit "... (diff truncated)")
        ++ after_diff []).
Proof.
  refine (proj1 (proj2 (generation_prompt_diff_block Sample.cfg_max3
            (lit "abcdef") Sample.api_py_added [] (lit "simple") 3
            (VList (List.map (fun x => VStr (lit x))
               ["feat"; "fix"; "docs"; "style"; "refactor"; "perf"; "test";
                "chore"; "ci"; "build"]%string))
            (lit "feat, fix, docs, style, refactor, perf, test, chore, ci, build")
            _ _ _ _)) _).
  - reflexivity.
  - lia.
  - reflexivity.
  - reflexivity.
  - vm_compute; reflexivity.
Defined.

(** C1 as the specification words it fails: between the kept prefix and the
    marker text the code puts a newline. *)
Lemma truncation_as_stated_fails :
  exists prompt,
    generation_prompt Sample.cfg_max3 (lit "abcdef") Sample.api_py_added []
      (lit "simple") = Ok prompt
    /\ ~ Stated.truncation_as_stated 3 (lit "abcdef") prompt.
Proof.
  eexists; split; [reflexivity|].
  unfold Stated.truncation_as_stated; vm_compute; discriminate.
Qed.

(** A negative bound cuts from the end; a bound that is a string, as
    [config-set max_diff_length 100] stores it, cannot be compared. *)
Example truncate_negative_bound :
  truncate_diff
    (Config.set Config.DEFAULT_CONFIG (lit "max_diff_length") (VInt (-1)))
    (lit "abc")
  = Ok (lit "ab" ++ nl ++ lit "... (diff truncated)").
Proof. vm_compute; reflexivity. Qed.

Example truncate_string_bound :
  truncate_diff
    (Config.set Config.DEFAULT_CONFIG (lit "max_diff_length")
       (VStr (lit "100")))
    (lit "abc")
  = Raise TypeError.
Proof. vm_compute; reflexivity. Qed.

(** The scenario of the specification: 5000 characters against a bound of
    4000 leave 4000 characters, the newline and the 20 characters of the
    marker text in the block. *)
Example truncate_5000 :
  option_map (@List.length char)
    (match truncate_diff Config.DEFAULT_CONFIG (repeat 120%N 5000) with
     | Ok d => Some d
     | Raise _ => None
     end)
  = Some (4000 + 1 + List.length Stated.marker_as_stated)%nat.
Proof. vm_compute; reflexivity. Qed.

(** *** The recent-commit block *)

Lemma recent_context_nil_iff (commits : list commit_record) :
  recent_context commits = [] <-> commits = [].
Proof.
  split; intros H.
  - destruct commits; [reflexivity|discriminate].
  - subst; reflexivity.
Qed.

(** C7.  The prompt ends with the closing fence, the recent-commit block
    and the closing instruction.  The block is empty exactly when no commit
    is supplied; otherwise it is the fixed header followed by one line
    "- {hash}: {message}" for each of the first three commits of the
    (most-recent-first) sequence, and for no other commit. *)
Theorem recent_commit_block (cfg : Config.t) (diff : str) (s : summary)
    (commits : list commit_record) (style : str) (tv : value) (types : str) :
  Config.commit_types cfg = Ok tv ->
  join_value (lit ", ") tv = Ok types ->
  let block := recent_context commits in
  _build_prompt cfg diff s commits style
  = Ok (before_diff (files_text s) s (format_guide style types) ++ diff
          ++ fence_close ++ block ++ closing)
  /\ (block = [] <-> commits = [])
  /\ (commits <> [] ->
        block
        = (nl ++ nl ++ lit "Recent commits for context:" ++ nl)
            ++ join nl
                 (List.map
                    (fun c => lit "- " ++ hash c ++ lit ": " ++ message c)
                    (firstn 3 commits)))
  /\ (List.length (firstn 3 commits) <= 3)%nat
  /\ (forall c1 c2 c3 more,
        commits = c1 :: c2 :: c3 :: more ->
        firstn 3 commits = [c1; c2; c3]).
Proof.
  intros Ht Hj block; repeat split.
  - rewrite (_build_prompt_ok _ _ _ _ _ _ _ Ht Hj).
    unfold after_diff; repeat rewrite <- List.app_assoc; reflexivity.
  - apply recent_context_nil_iff.
  - intros ->; reflexivity.
  - intros Hne; unfold block; destruct commits; [contradiction|reflexivity].
  - apply firstn_le_length.
  - intros c1 c2 c3 more ->; reflexivity.
Qed.

Lemma recent_commit_block_witness :
  exists head,
    _build_prompt Config.DEFAULT_CONFIG (lit "+x") Sample.api_py_added
      Sample.four_commits (lit "simple")
    = Ok (head ++ fence_close
            ++ lines [ []; [];
                       lit "Recent commits for context:";
                       lit "- aaaaaa1: fourth";
                       lit "- aaaaaa2: third";
                       lit "- aaaaaa3: second" ]
            ++ closing).
Proof.
  eexists.
  rewrite (proj1 (recent_commit_block Config.DEFAULT_CONFIG (lit "+x")
             Sample.api_py_added Sample.four_commits (lit "simple")
             (VList (List.map (fun x => VStr (lit x))
                ["feat"; "fix"; "docs"; "style"; "refactor"; "perf"; "test";
                 "chore"; "ci"; "build"]%string))
             (lit "feat, fix, docs, style, refactor, perf, test, chore, ci, build")
             eq_refl eq_refl)).
  rewrite List.app_assoc; reflexivity.
Defined.

(** *** The format guides *)

Lemma contains_in_middle (needle a m b : str) :
  contains needle m = true -> contains needle (a ++ m ++ b) = true.
Proof.
  intros H; destruct (contains_inv _ _ H) as (x & y & ->).
  replace (a ++ (x ++ needle ++ y) ++ b)
    with ((a ++ x) ++ needle ++ (y ++ b))
    by (repeat rewrite <- List.app_assoc; reflexivity).
  apply contains_intro.
Qed.

Lemma join_factor (sep x : str) (l : list str) :
  In x l -> exists a b, join sep l = a ++ x ++ b.
Proof.
  induction l as [|y l IH]; intros Hin; [destruct Hin|].
  destruct l as [|z l].
  - destruct Hin as [->|[]]; exists [], []; simpl.
    rewrite List.app_nil_r; reflexivity.
  - rewrite join_two_or_more.
    destruct Hin as [->|Hin].
    + exists [], (sep ++ join sep (z :: l)); reflexivity.
    + destruct (IH Hin) as (a & b & ->).
      exists (y ++ sep ++ a), b.
      repeat rewrite <- List.app_assoc; reflexivity.
Qed.

Lemma contains_line (x : str) (l : list str) :
  In x l -> contains x (lines l) = true.
Proof.
  intros Hin; destruct (join_factor nl x l Hin) as (a & b & E).
  unfold lines; rewrite E; apply contains_intro.
Qed.

Lemma guide_conventional_types (types : str) :
  contains (lit "Types: " ++ types) (guide_conventional types) = true.
Proof.
  unfold guide_conventional; apply contains_line.
  do 5 right; left; reflexivity.
Qed.

Lemma has_non_ascii_app (a b : str) :
  has_non_ascii (a ++ b) = has_non_ascii a || has_non_ascii b.
Proof. apply existsb_app. Qed.

Lemma uint_chars_ascii (d : Decimal.uint) :
  has_non_ascii (Dec.uint_chars d) = false.
Proof. induction d; simpl; try reflexivity; exact IHd. Qed.

Lemma str_of_Z_ascii (z : Z) : has_non_ascii (Dec.str_of_Z z) = false.
Proof.
  unfold Dec.str_of_Z, Dec.str_of_N.
  destruct (z <? 0); simpl; apply uint_chars_ascii.
Qed.

(** Outside its holes the prompt is plain ASCII. *)
Lemma render_prompt_non_ascii (files : str) (s : summary)
    (guide diff recent : str) :
  has_non_ascii (render_prompt files s guide diff recent)
  = has_non_ascii files || has_non_ascii guide || has_non_ascii diff
    || has_non_ascii recent.
Proof.
  unfold render_prompt, lines; cbn [join].
  repeat rewrite has_non_ascii_app.
  rewrite !str_of_Z_ascii.
  repeat match goal with
         | |- context [has_non_ascii (lit ?x)] =>
             change (has_non_ascii (lit x)) with false
         end.
  change (has_non_ascii nl) with false.
  change (has_non_ascii []) with false.
  repeat rewrite ?orb_false_l, ?orb_false_r.
  repeat rewrite orb_assoc; reflexivity.
Qed.

Lemma all_strs_map (cts : list str) : all_strs (List.map VStr cts) = Ok cts.
Proof.
  induction cts as [|c cts IH]; simpl; [reflexivity|].
  rewrite IH; reflexivity.
Qed.

Lemma join_value_strs (sep : str) (cts : list str) :
  join_value sep (VList (List.map VStr cts)) = Ok (join sep cts).
Proof. simpl; rewrite all_strs_map; reflexivity. Qed.

(** C8.  With the configured commit types [cts]:
    - the conventional prompt contains "Types: " followed by the types
      joined by ", ";
    - the semantic prompt contains the example line
      "✨ feat: add user authentication", which carries an emoji;
    - the simple prompt has the simple guide where the other two have
      theirs: that guide has no "Types:" line and no character outside
      ASCII, the prompt does not depend on the commit types, and it has a
      character outside ASCII only where the file list, the diff or the
      recent commits bring one. *)
Theorem style_markers (cfg : Config.t) (diff : str) (s : summary)
    (commits : list commit_record) (cts : list str) :
  Config.commit_types cfg = Ok (VList (List.map VStr cts)) ->
  (exists p,
     _build_prompt cfg diff s commits (lit "conventional") = Ok p
     /\ contains (lit "Types: " ++ join (lit ", ") cts) p = true)
  /\ (exists p,
        _build_prompt cfg diff s commits (lit "semantic") = Ok p
        /\ contains (lit "✨ feat: add user authentication") p = true
        /\ has_non_ascii (lit "✨ feat: add user authentication") = true)
  /\ (exists p,
        _build_prompt cfg diff s commits (lit "simple") = Ok p
        /\ p = render_prompt (files_text s) s guide_simple diff
                 (recent_context commits)
        /\ contains (lit "Types:") guide_simple = false
        /\ has_non_ascii guide_simple = false
        /\ has_non_ascii p
           = has_non_ascii (files_text s) || has_non_ascii diff
             || has_non_ascii (recent_context commits)).
Proof.
  intros Ht.
  pose proof (join_value_strs (lit ", ") cts) as Hj.
  repeat split.
  - eexists; split.
    + apply (_build_prompt_ok _ _ _ _ _ _ _ Ht Hj).
    + unfold before_diff.
      change (format_guide (lit "conventional") (join (lit ", ") cts))
        with (guide_conventional (join (lit ", ") cts)).
      rewrite <- !List.app_assoc.
      apply contains_in_middle, guide_conventional_types.
  - eexists; split; [|split].
    + apply (_build_prompt_ok _ _ _ _ _ _ _ Ht Hj).
    + unfold before_diff.
      change (format_guide (lit "semantic") (join (lit ", ") cts))
        with guide_semantic.
      rewrite <- !List.app_assoc.
      apply contains_in_middle; vm_compute; reflexivity.
    + vm_compute; reflexivity.
  - exists (render_prompt (files_text s) s guide_simple diff
              (recent_context commits)).
    split; [|split; [|split; [|split]]].
    + rewrite (_build_prompt_ok _ _ _ _ _ _ _ Ht Hj).
      rewrite render_prompt_around_diff; reflexivity.
    + reflexivity.
    + vm_compute; reflexivity.
    + vm_compute; reflexivity.
    + rewrite render_prompt_non_ascii.
      change (has_non_ascii guide_simple) with false.
      rewrite orb_false_r; reflexivity.
Qed.

(** The scenario of the specification: api.py added, conventional style,
    commit types feat and fix. *)
Lemma style_markers_witness :
  exists p,
    _build_prompt Sample.cfg_feat_fix (lit "+x") Sample.api_py_added []
      (lit "conventional") = Ok p
    /\ contains (lit "Types: feat, fix") p = true
    /\ contains (nl ++ lit "- api.py (A)" ++ nl) p = true.
Proof.
  destruct (style_markers Sample.cfg_feat_fix (lit "+x") Sample.api_py_added
              [] [lit "feat"; lit "fix"] eq_refl)
    as [(p & Hp & Hc) _].
  exists p; split; [exact Hp|split].
  - exact Hc.
  - revert Hp; vm_compute; intros Hp; injection Hp as <-; reflexivity.
Defined.

End PromptFacts.

(** ** The diff summary *)

Module SummaryFacts.

Import GitUtils SummarySpec.

Lemma summary_step_files (s : summary) (i : diff_item) :
  files_changed (summary_step s i) = files_changed s ++ [entry i].
Proof.
  unfold summary_step, entry.
  destruct (type_is (change_type i) "A"); [reflexivity|].
  destruct (type_is (change_type i) "D"); [reflexivity|].
  destruct (type_is (change_type i) "M"); reflexivity.
Qed.

Lemma summary_step_total (s : summary) (i : diff_item) :
  total (summary_step s i) = total s + (if counted i then 1 else 0).
Proof.
  unfold summary_step, counted, total.
  destruct (type_is (change_type i) "A"); simpl; [lia|].
  destruct (type_is (change_type i) "D"); simpl; [lia|].
  destruct (type_is (change_type i) "M"); simpl; lia.
Qed.

(** The loop invariant, from any starting summary. *)
Lemma summary_loop (diff : list diff_item) (s0 : summary) :
  files_changed (fold_left summary_step diff s0)
  = files_changed s0 ++ List.map entry diff
  /\ total (fold_left summary_step diff s0)
       + Z.of_nat (List.length (uncounted diff))
     = total s0 + Z.of_nat (List.length diff).
Proof.
  revert s0; induction diff as [|i diff IH]; intros s0; simpl.
  - rewrite List.app_nil_r; split; [reflexivity|lia].
  - destruct (IH (summary_step s0 i)) as [Hf Ht]; split.
    + rewrite Hf, summary_step_files, <- List.app_assoc; reflexivity.
    + rewrite summary_step_total in Ht.
      unfold uncounted in *; simpl.
      destruct (counted i); simpl in *; lia.
Qed.

Lemma uncounted_nil_iff (diff : list diff_item) :
  uncounted diff = [] <-> forall i, In i diff -> counted i = true.
Proof.
  unfold uncounted; induction diff as [|i diff IH]; simpl.
  - split; [intros _ i []|reflexivity].
  - destruct (counted i) eqn:E; simpl.
    + rewrite IH; split.
      * intros H j [<-|Hj]; [exact E|apply H, Hj].
      * intros H j Hj; apply H; right; exact Hj.
    + split; [discriminate|].
      intros H; specialize (H i (or_introl eq_refl)); congruence.
Qed.

(** C2 (as amended).  Every entry of the backend diff is appended to
    [files_changed], whatever its change type; the three counters add up
    to the number of entries whose change type is A, D or M.  Hence
    additions + deletions + modifications plus the number of other
    entries is [len(files_changed)], and the sum equals
    [len(files_changed)] exactly when every entry is of type A, D or M. *)
Theorem diff_summary_counts (diff : list diff_item) :
  let s := get_diff_summary diff in
  files_changed s = List.map entry diff
  /\ additions s + deletions s + modifications s
       + Z.of_nat (List.length (uncounted diff))
     = Z.of_nat (List.length (files_changed s))
  /\ additions s + deletions s + modifications s
     <= Z.of_nat (List.length (files_changed s))
  /\ (additions s + deletions s + modifications s
        = Z.of_nat (List.length (files_changed s))
      <-> forall i, In i diff -> counted i = true).
Proof.
  intros s.
  destruct (summary_loop diff empty_summary) as [Hf Ht].
  fold (get_diff_summary diff) in Hf, Ht; fold s in Hf, Ht.
  simpl in Hf; unfold total in Ht; simpl in Ht.
  assert (Hlen : List.length (files_changed s) = List.length diff)
    by (rewrite Hf; apply List.length_map).
  rewrite Hlen; repeat split.
  - exact Hf.
  - exact Ht.
  - lia.
  - intros H; apply uncounted_nil_iff.
    destruct (uncounted diff); [reflexivity|simpl in Ht; lia].
  - intros H; apply uncounted_nil_iff in H; rewrite H in Ht; simpl in Ht; lia.
Qed.

(** C2 as the specification words it fails on a staged rename: the entry is
    listed, no counter moves. *)
Lemma summary_invariant_fails_on_rename :
  ~ Stated.summary_invariant_as_stated
      (get_diff_summary [Sample.renamed_item]).
Proof.
  unfold Stated.summary_invariant_as_stated; vm_compute; discriminate.
Qed.

(** The fixture of [test_get_diff_summary]. *)
Example summary_of_modification :
  let s := get_diff_summary [Sample.modified_item] in
  modifications s = 1 /\ List.length (files_changed s) = 1%nat
  /\ List.map type (files_changed s) = [Some (lit "M")].
Proof. vm_compute; repeat split. Qed.

End SummaryFacts.

(** ** Parsing the shortstat line *)

Module StatsFacts.

Import GitUtils Shortstat.

Lemma uint_chars_digits (d : Decimal.uint) :
  forallb is_digit (Dec.uint_chars d) = true.
Proof. induction d; simpl; try reflexivity; exact IHd. Qed.

Lemma digit_no_comma (c : char) :
  is_digit c = true -> negb (char_eqb c 44%N) = true.
Proof.
  unfold is_digit, char_eqb; intros H.
  apply andb_true_iff in H as [H1 H2].
  apply N.leb_le in H1; apply negb_true_iff, N.eqb_neq; lia.
Qed.

Lemma digit_no_space (c : char) :
  is_digit c = true -> negb (is_space c) = true.
Proof.
  unfold is_digit, is_space; intros H.
  apply andb_true_iff in H as [H1 H2].
  apply N.leb_le in H1; apply N.leb_le in H2.
  apply negb_true_iff.
  repeat match goal with
         | |- (_ || _) = false => apply orb_false_intro
         | |- (_ && _) = false => apply andb_false_iff
         end;
    try (apply N.eqb_neq; lia);
    try (right; apply N.leb_gt; lia);
    try (left; apply N.leb_gt; lia).
Qed.

Lemma forallb_impl {A : Type} (f g : A -> bool) (l : list A) :
  (forall x, f x = true -> g x = true) ->
  forallb f l = true -> forallb g l = true.
Proof.
  intros H; induction l as [|x l IH]; simpl; [reflexivity|].
  intros E; apply andb_true_iff in E as [E1 E2].
  rewrite (H _ E1), (IH E2); reflexivity.
Qed.

Lemma str_of_N_no_comma (n : N) : no_comma (Dec.str_of_N n) = true.
Proof.
  apply (forallb_impl is_digit); [apply digit_no_comma|].
  apply uint_chars_digits.
Qed.

Lemma str_of_N_no_space (n : N) : no_space (Dec.str_of_N n) = true.
Proof.
  apply (forallb_impl is_digit); [apply digit_no_space|].
  apply uint_chars_digits.
Qed.

(** *** [split(",")] *)

Lemma split_on_plain (sep : char) (a : str) :
  forallb (fun c => negb (char_eqb c sep)) a = true -> split_on sep a = [a].
Proof.
  induction a as [|c a IH]; simpl; [reflexivity|].
  intros H; apply andb_true_iff in H as [Hc Ha].
  apply negb_true_iff in Hc; rewrite Hc, (IH Ha); reflexivity.
Qed.

Lemma split_on_sep (sep : char) (a rest : str) :
  forallb (fun c => negb (char_eqb c sep)) a = true ->
  split_on sep (a ++ sep :: rest) = a :: split_on sep rest.
Proof.
  induction a as [|c a IH]; simpl.
  - intros _; rewrite char_eqb_refl; reflexivity.
  - intros H; apply andb_true_iff in H as [Hc Ha].
    apply negb_true_iff in Hc; rewrite Hc, (IH Ha); reflexivity.
Qed.

(** *** [strip()] and [split()] *)

Lemma lstrip_head (c : char) (s : str) :
  is_space c = false -> lstrip (c :: s) = c :: s.
Proof. intros H; simpl; rewrite H; reflexivity. Qed.

Lemma rstrip_last (s : str) (c : char) :
  is_space c = false -> rstrip (s ++ [c]) = s ++ [c].
Proof.
  intros H; unfold rstrip.
  rewrite rev_app_distr.
  change (rev [c] ++ rev s) with (c :: rev s).
  rewrite lstrip_head by exact H.
  simpl; rewrite rev_involutive; reflexivity.
Qed.

Lemma strip_no_space (s : str) : no_space s = true -> strip s = s.
Proof.
  intros H; unfold strip.
  assert (Hl : forall t, no_space t = true -> lstrip t = t).
  { intros [|c t] Ht; [reflexivity|].
    simpl in Ht; apply andb_true_iff in Ht as [Hc _].
    apply negb_true_iff in Hc; apply lstrip_head, Hc. }
  rewrite (Hl _ H); unfold rstrip.
  rewrite Hl, rev_involutive; [reflexivity|].
  unfold no_space in *; rewrite forallb_forall in *.
  intros x Hx; apply H, in_rev, Hx.
Qed.

Lemma words_aux_run (d cur rest : str) :
  no_space d = true -> words_aux cur (d ++ rest) = words_aux (rev d ++ cur) rest.
Proof.
  revert cur; induction d as [|c d IH]; intros cur H; simpl; [reflexivity|].
  simpl in H; apply andb_true_iff in H as [Hc Hd].
  apply negb_true_iff in Hc; rewrite Hc, (IH _ Hd), <- List.app_assoc.
  reflexivity.
Qed.

Lemma words_first (d rest : str) :
  d <> [] -> no_space d = true ->
  words (d ++ 32%N :: rest) = d :: words rest.
Proof.
  intros Hne H; unfold words.
  rewrite (words_aux_run _ _ _ H), List.app_nil_r; simpl.
  destruct (rev d) eqn:E.
  - apply (f_equal (@rev char)) in E; rewrite rev_involutive in E.
    contradiction.
  - rewrite <- E, rev_involutive; reflexivity.
Qed.

(** *** [int()] reads back what [str()] wrote *)

Lemma digits_acc (d : Decimal.uint) (acc : positive) :
  Dec.digits (Z.pos acc) true (Dec.uint_chars d)
  = Some (Z.pos (Pos.of_uint_acc d acc)).
Proof.
  revert acc; induction d; intros acc; [reflexivity|..];
    cbn [Dec.uint_chars Dec.digits Pos.of_uint_acc];
    match goal with
    | |- context [Dec.digit_val ?c] =>
        let v := eval vm_compute in (Dec.digit_val c) in
        change (Dec.digit_val c) with v
    end;
    match goal with
    | |- context [N.eqb ?c 95%N] => change (N.eqb c 95%N) with false
    end;
    cbv iota; rewrite <- IHd; f_equal; lia.
Qed.

Lemma digits_zero (d : Decimal.uint) :
  Dec.digits 0 true (Dec.uint_chars d) = Some (Z.of_N (Pos.of_uint d)).
Proof.
  induction d; [reflexivity|..];
    cbn [Dec.uint_chars Dec.digits Pos.of_uint];
    match goal with
    | |- context [Dec.digit_val ?c] =>
        let v := eval vm_compute in (Dec.digit_val c) in
        change (Dec.digit_val c) with v
    end;
    match goal with
    | |- context [N.eqb ?c 95%N] => change (N.eqb c 95%N) with false
    end;
    cbv iota; first [exact IHd | apply (digits_acc d 1) | idtac].
  all: match goal with
       | |- Dec.digits ?k true _ = Some (Z.of_N (N.pos (Pos.of_uint_acc _ ?a))) =>
           change k with (Z.pos a); apply digits_acc
       end.
Qed.

Lemma digits_start (d : Decimal.uint) :
  d <> Decimal.Nil ->
  Dec.digits 0 false (Dec.uint_chars d) = Dec.digits 0 true (Dec.uint_chars d).
Proof. destruct d; [contradiction|..]; reflexivity. Qed.

Lemma to_uint_nonnil (n : N) : N.to_uint n <> Decimal.Nil.
Proof.
  destruct n; simpl; [discriminate|apply Unsigned.to_uint_nonnil].
Qed.

Lemma str_of_N_nonempty (n : N) : Dec.str_of_N n <> [].
Proof.
  unfold Dec.str_of_N; pose proof (to_uint_nonnil n) as H.
  destruct (N.to_uint n); [contradiction|..]; discriminate.
Qed.

Lemma py_int_str (n : N) : Dec.py_int (Dec.str_of_N n) = Ok (Z.of_N n).
Proof.
  unfold Dec.py_int.
  rewrite strip_no_space by apply str_of_N_no_space.
  assert (H : Dec.digits 0 false (Dec.str_of_N n) = Some (Z.of_N n)).
  { unfold Dec.str_of_N.
    rewrite digits_start by apply to_uint_nonnil.
    rewrite digits_zero.
    change (Pos.of_uint (N.to_uint n)) with (N.of_uint (N.to_uint n)).
    rewrite DecimalN.Unsigned.of_to; reflexivity. }
  unfold Dec.str_of_N in *.
  destruct (N.to_uint n); cbn [Dec.uint_chars] in *; rewrite H; reflexivity.
Qed.

(** *** One count of the line *)

Lemma count_part_eq (n : N) (noun sign : string) :
  count_part n noun sign = 44%N :: part n noun sign.
Proof.
  unfold count_part, part.
  change (lit ", ") with [44%N; 32%N]; change (lit " ") with [32%N].
  reflexivity.
Qed.

Lemma part_split (n : N) (noun sign : string) :
  part n noun sign
  = (32%N :: Dec.str_of_N n ++ [32%N]) ++ lit noun ++ (plural n ++ lit sign).
Proof.
  unfold part; simpl; rewrite <- List.app_assoc; reflexivity.
Qed.

Ltac pieces :=
  repeat rewrite forallb_app; repeat rewrite andb_true_iff; repeat split;
  try reflexivity;
  try apply str_of_N_no_comma; try apply str_of_N_no_space;
  try (match goal with |- context [plural ?n] => unfold plural; destruct (N.eqb n 1) end;
       reflexivity).

Lemma part_no_comma (n : N) (noun sign : string) :
  no_comma (lit noun) = true -> no_comma (lit sign) = true ->
  no_comma (part n noun sign) = true.
Proof.
  intros H1 H2; unfold part, no_comma in *.
  change (32%N :: Dec.str_of_N n ++ 32%N :: lit noun ++ plural n ++ lit sign)
    with ([32%N] ++ Dec.str_of_N n ++ [32%N] ++ lit noun ++ plural n ++ lit sign).
  pieces; assumption.
Qed.

Lemma stats_step_part (t : Z) (n : N) (noun sign : string) (w : str) (c : char) :
  contains (lit "insertion") (lit noun) || contains (lit "deletion") (lit noun)
  = true ->
  lit sign = w ++ [c] -> is_space c = false ->
  stats_step (Ok t) (part n noun sign) = Ok (t + Z.of_N n).
Proof.
  intros Hnoun Hsign Hc; unfold stats_step; cbn [bind].
  assert (Hin : contains (lit "insertion") (part n noun sign)
                || contains (lit "deletion") (part n noun sign) = true).
  { rewrite part_split.
    apply orb_true_iff in Hnoun as [H|H]; apply orb_true_iff; [left|right];
      apply PromptFacts.contains_in_middle; exact H. }
  rewrite Hin.
  assert (Hstrip : strip (part n noun sign)
                   = Dec.str_of_N n ++ 32%N :: lit noun ++ plural n ++ lit sign).
  { unfold strip, part.
    change (lstrip (32%N :: ?x)) with (lstrip x).
    pose proof (str_of_N_nonempty n) as Hne.
    pose proof (str_of_N_no_space n) as Hns.
    destruct (Dec.str_of_N n) as [|d ds] eqn:E; [contradiction|].
    simpl in Hns; apply andb_true_iff in Hns as [Hd _].
    apply negb_true_iff in Hd.
    change ((d :: ds) ++ 32%N :: lit noun ++ plural n ++ lit sign)
      with (d :: (ds ++ 32%N :: lit noun ++ plural n ++ lit sign)).
    rewrite lstrip_head by exact Hd.
    rewrite Hsign.
    replace (d :: ds ++ 32%N :: lit noun ++ plural n ++ w ++ [c])
      with ((d :: ds ++ 32%N :: lit noun ++ plural n ++ w) ++ [c]).
    - apply rstrip_last, Hc.
    - simpl; f_equal; repeat rewrite <- List.app_assoc; simpl.
      repeat rewrite <- List.app_assoc; reflexivity. }
  rewrite Hstrip.
  rewrite words_first
    by (try apply str_of_N_nonempty; apply str_of_N_no_space).
  rewrite py_int_str; reflexivity.
Qed.

Lemma stats_step_insertions (t : Z) (n : N) :
  stats_step (Ok t) (part n "insertion" "(+)") = Ok (t + Z.of_N n).
Proof.
  apply (stats_step_part t n "insertion" "(+)" (lit "(+") 41%N);
    reflexivity.
Qed.

Lemma stats_step_deletions (t : Z) (n : N) :
  stats_step (Ok t) (part n "deletion" "(-)") = Ok (t + Z.of_N n).
Proof.
  apply (stats_step_part t n "deletion" "(-)" (lit "(-") 41%N);
    reflexivity.
Qed.

(** *** The whole line *)

Lemma split_parts (a : str) (parts : list str) :
  no_comma a = true ->
  Forall (fun p => no_comma p = true) parts ->
  split_on 44%N (a ++ List.concat (List.map (cons 44%N) parts)) = a :: parts.
Proof.
  intros Ha Hp; revert a Ha; induction Hp as [|p ps Hp _ IH]; intros a Ha.
  - simpl; rewrite List.app_nil_r; apply split_on_plain, Ha.
  - cbn [List.concat List.map app].
    rewrite (split_on_sep 44%N a _ Ha); f_equal; exact (IH p Hp).
Qed.

Lemma stats_of_parts (diff : list diff_item) (a : str) (parts : list str) :
  a <> [] ->
  no_comma a = true ->
  Forall (fun p => no_comma p = true) parts ->
  get_commit_stats diff (a ++ List.concat (List.map (cons 44%N) parts))
  = (t <- fold_left stats_step parts (Ok 0) ;;
     Ok (Z.of_nat (List.length diff), t)).
Proof.
  intros Hne Ha Hp; unfold get_commit_stats.
  rewrite (split_parts a parts Ha Hp).
  destruct a as [|c a]; [contradiction|reflexivity].
Qed.

Lemma line_parts (files : N) (insertions deletions : option N) :
  line files insertions deletions
  = first_part files
      ++ List.concat (List.map (cons 44%N)
                   (opt_parts insertions "insertion" "(+)"
                    ++ opt_parts deletions "deletion" "(-)")).
Proof.
  unfold line, first_part; repeat rewrite <- List.app_assoc.
  do 4 f_equal.
  destruct insertions, deletions; unfold opt_part, opt_parts;
    rewrite ?count_part_eq; simpl; rewrite ?List.app_nil_r; reflexivity.
Qed.

(** C9.  On the line git prints, [get_commit_stats] answers with the number
    of entries of the index diff and the sum of the insertion and the
    deletion count (a count that is left out adds nothing); on an empty
    line it answers 0 and does not raise. *)
Theorem commit_stats_total (diff : list diff_item) (files : N)
    (insertions deletions : option N) :
  get_commit_stats diff (line files insertions deletions)
  = Ok (Z.of_nat (List.length diff),
        count_of insertions + count_of deletions)
  /\ get_commit_stats diff []
     = Ok (Z.of_nat (List.length diff), 0).
Proof.
  split; [|reflexivity].
  rewrite line_parts, stats_of_parts.
  - destruct insertions, deletions; cbn [fold_left opt_parts app];
      rewrite ?stats_step_insertions, ?stats_step_deletions;
      cbn [bind count_of]; apply f_equal, f_equal; lia.
  - unfold first_part; change (lit " ") with [32%N]; discriminate.
  - unfold first_part, no_comma; pieces.
  - apply Forall_app; split;
      [destruct insertions|destruct deletions]; simpl; constructor;
      try constructor; apply part_no_comma; reflexivity.
Qed.

(** The line quoted in the source. *)
Example commit_stats_quoted :
  get_commit_stats [Sample.modified_item; Sample.renamed_item]
    (lit " 2 files changed, 10 insertions(+), 3 deletions(-)")
  = Ok (2, 13).
Proof. vm_compute; reflexivity. Qed.

Example line_quoted :
  line 2 (Some 10%N) (Some 3%N)
  = lit " 2 files changed, 10 insertions(+), 3 deletions(-)".
Proof. vm_compute; reflexivity. Qed.

Example line_singular :
  line 1 (Some 1%N) None = lit " 1 file changed, 1 insertion(+)".
Proof. vm_compute; reflexivity. Qed.

End StatsFacts.

(** ** The interactive session *)

Module SessionFacts.

Import Cli.

Lemma dict_set_set (k : str) (v v' : value) (d : dict) :
  dict_set k v (dict_set k v' d) = dict_set k v d.
Proof.
  induction d as [|[k0 v0] d IH]; simpl.
  - rewrite eqb_refl; reflexivity.
  - destruct (Str.eqb k k0) eqn:E; simpl.
    + rewrite eqb_refl; reflexivity.
    + rewrite E, IH; reflexivity.
Qed.

Lemma dict_set_same (k : str) (v : value) (d : dict) :
  dict_get k d = Some v -> dict_set k v d = d.
Proof.
  induction d as [|[k0 v0] d IH]; simpl; [discriminate|].
  destruct (Str.eqb k k0) eqn:E.
  - apply eqb_eq in E; subst k0; intros H; injection H as ->; reflexivity.
  - intros H; rewrite (IH H); reflexivity.
Qed.

Lemma get_set_same (c : Config.t) (k : str) (v dflt : value) :
  Config.get (Config.set c k v) k dflt = v.
Proof.
  unfold Config.get, Config.set; rewrite dict_get_set_same; reflexivity.
Qed.



(** When [original_temp + 0.2] raises (the temperature is no number), the
    branch ends there: nothing has been written, and the loop is left with
    the exception. *)
Lemma regenerate_raises_before_writing (st : state) (e : exn) :
  Num.add_float
    (Config.get (config st) (lit "temperature") (VFloat Num.f0_3)) Num.f0_2
  = Raise e ->
  regenerate st = Raise e
  /\ forall k llm message rest,
       _interactive_edit k llm message (Regenerate :: rest) st
       = Throw e (say Menu st).
Proof.
  intros E.
  assert (Henter : forall s, config s = config st -> regen_enter s = Raise e)
    by (intros s Hs; unfold regen_enter; rewrite Hs, E; reflexivity).
  split.
  - unfold regenerate; rewrite Henter by reflexivity; reflexivity.
  - intros k llm message rest; cbn [_interactive_edit]; unfold regenerate.
    rewrite Henter by reflexivity; reflexivity.
Qed.

(** From the default 0.3 the branch runs under 0.5 and leaves the
    configuration as it found it. *)
Example regenerate_default :
  option_map (fun st1 => Config.get (config (snd st1)) (lit "temperature") VNone)
    (match regen_enter Session.start with Ok x => Some x | Raise _ => None end)
  = Some (VFloat Num.f0_5)
  /\ option_map config
       (match regenerate Session.start with Ok x => Some x | Raise _ => None end)
     = Some Config.DEFAULT_CONFIG.
Proof. split; vm_compute; reflexivity. Qed.

(** From 0.9 the raised temperature is capped at 1.0. *)
Example regenerate_capped :
  option_map (fun st1 => Config.get (config (snd st1)) (lit "temperature") VNone)
    (match regen_enter Session.warm with Ok x => Some x | Raise _ => None end)
  = Some (VFloat Num.f1_0).
Proof. vm_compute; reflexivity. Qed.

(** A temperature that is not a number ends the branch before any write. *)
Example regenerate_stringly : regenerate Session.stringly = Raise TypeError.
Proof. reflexivity. Qed.

(** *** Feedback *)

(** C4 (as amended).  When the provider call of a refinement raises, the
    interactive loop is left with that exception: the answers that follow
    are never read and no message is returned.  [commit] then reports the
    exception and exits with status 1 without creating a commit (the
    message in hand is neither replaced nor used). *)
Theorem feedback_failure_ends_session (k : LLM.sdk) (llm : LLM.client)
    (r : repo) (a : commit_args) (message feedback : str)
    (rest : list choice) (st : state) (e : exn) :
  LLM.refine_message k (config st) llm message feedback = Raise e ->
  no_edit a = false ->
  answers a = Feedback feedback :: rest ->
  _interactive_edit k llm message (Feedback feedback :: rest) st
  = Throw e (say Menu st)
  /\ commit_finish k llm r a message st = Throw e (say Menu st)
  /\ exists label,
       catch (commit_finish k llm r a message st)
       = Exit 1 (say (Failure label e) (say Menu st)).
Proof.
  intros Hfail Hedit Hans.
  assert (Hloop : _interactive_edit k llm message (Feedback feedback :: rest) st
                  = Throw e (say Menu st)).
  { cbn [_interactive_edit]; unfold refine.
    cbn [config say]; rewrite Hfail; reflexivity. }
  assert (Hfin : commit_finish k llm r a message st = Throw e (say Menu st)).
  { unfold commit_finish; rewrite Hedit, Hans, Hloop; reflexivity. }
  repeat split; [exact Hloop|exact Hfin|].
  rewrite Hfin; destruct e; eexists; reflexivity.
Qed.

Lemma feedback_failure_ends_session_witness :
  catch (commit_finish Session.sdk_down Session.llm Session.repo_one
           (Session.args [Feedback (lit "shorter"); Accept])
           (lit "feat: add parser") Session.start)
  = Exit 1
      (say (Failure (lit "Error:") (SdkError (lit "Connection error.")))
         (say Menu Session.start)).
Proof.
  destruct (feedback_failure_ends_session Session.sdk_down Session.llm
              Session.repo_one
              (Session.args [Feedback (lit "shorter"); Accept])
              (lit "feat: add parser") (lit "shorter") [Accept]
              Session.start (SdkError (lit "Connection error."))
              eq_refl eq_refl eq_refl)
    as (_ & Hfin & _).
  rewrite Hfin; reflexivity.
Defined.

(** C4 as the specification words it fails: after a refinement that could
    not reach the provider the session is not back at the menu. *)
Lemma feedback_failure_not_back_at_menu :
  ~ Session.back_at_menu_as_stated
      (_interactive_edit Session.sdk_down Session.llm (lit "feat: add parser")
         [Feedback (lit "shorter")] Session.start)
      (lit "feat: add parser").
Proof.
  intros [st H]; vm_compute in H; discriminate H.
Qed.

(** A refinement that succeeds replaces the message by the stripped
    answer. *)
Example feedback_success :
  exists st,
    _interactive_edit Session.sdk_up Session.llm (lit "feat: add parser")
      [Feedback (lit "shorter"); Accept] Session.start
    = Return (lit "fix: handle empty input") st.
Proof. eexists; vm_compute; reflexivity. Qed.

(** *** Edit *)




(** End of input before any line: the message is empty, and that is what
    is committed. *)
Example edit_no_line :
  _interactive_edit Session.sdk_up Session.llm (lit "feat: add parser")
    [Edit []] Session.start
  = AtMenu []
      (say Menu
         (say (Panel [])
            (say (Say (nl ++ lit "[bold green]Updated message:[/bold green]"))
               (say Menu Session.start))))
  /\ exists st',
       commit_finish Session.sdk_up Session.llm Session.repo_one
         (Session.args [Edit []; Accept]) (lit "feat: add parser")
         Session.start
       = Return (Some Session.full_hash) st'.
Proof. split; [|eexists]; vm_compute; reflexivity. Qed.

Example edit_two_lines :
  exists st,
    _interactive_edit Session.sdk_up Session.llm (lit "feat: add parser")
      [Edit [lit "subject"; lit "body"]; Accept] Session.start
    = Return (lit "subject" ++ nl ++ lit "body") st.
Proof. eexists; vm_compute; reflexivity. Qed.

End SessionFacts.

(** ** Credentials *)

Module CredentialFacts.

Import LLM.





(** With an SDK that insists on the key, the failure is the SDK's. *)
Example strict_sdk_raises :
  init StatedCli.sdk_strict
    (Config.set Config.DEFAULT_CONFIG (lit "provider") (VStr (lit "openai")))
    Sample.no_env None
  = Raise (SdkError (lit "The api_key client option must be set")).
Proof. vm_compute; reflexivity. Qed.

(** The local provider needs no key. *)
Example ollama_needs_no_key :
  option_map client_handle
    (match init StatedCli.sdk_strict
             (Config.set Config.DEFAULT_CONFIG (lit "provider")
                (VStr (lit "ollama")))
             Sample.no_env None with
     | Ok c => Some c
     | Raise _ => None
     end)
  = Some ollama_handle.
Proof. vm_compute; reflexivity. Qed.

End CredentialFacts.

(** ** Dotted configuration keys *)

Module ConfigFacts.

Import Cli StatedCli.

Lemma split_on_head (sep : char) (s : str) :
  exists p rest,
    split_on sep s = p :: rest
    /\ forallb (fun c => negb (char_eqb c sep)) p = true.
Proof.
  induction s as [|c s (p & rest & E & Hp)]; simpl.
  - exists [], []; split; reflexivity.
  - destruct (char_eqb c sep) eqn:Ec.
    + exists [], (split_on sep s); split; reflexivity.
    + rewrite E; exists (c :: p), rest; split; [reflexivity|].
      simpl; rewrite Ec, Hp; reflexivity.
Qed.

Lemma no_sep_not_contains (sep : char) (p : str) :
  forallb (fun c => negb (char_eqb c sep)) p = true ->
  contains [sep] p = false.
Proof.
  induction p as [|c p IH]; simpl; [reflexivity|].
  intros H; apply andb_true_iff in H as [Hc Hp].
  apply negb_true_iff in Hc.
  unfold char_eqb in *; rewrite N.eqb_sym, Hc; simpl.
  apply IH, Hp.
Qed.

Lemma set_path_step (p q : str) (rest : list str) (v : value) (d : dict) :
  set_path (p :: q :: rest) v d
  = match dict_get p d with
    | Some (VDict sub) =>
        sub' <- set_path (q :: rest) v sub ;;
        Ok (dict_set p (VDict sub') d)
    | Some _ => Raise TypeError
    | None =>
        sub' <- set_path (q :: rest) v [] ;;
        Ok (dict_set p (VDict sub') (dict_set p (VDict []) d))
    end.
Proof.
  change (set_path (p :: q :: rest) v d)
    with (match dict_get p
                  match dict_get p d with
                  | None => dict_set p (VDict []) d
                  | Some _ => d
                  end with
          | Some (VDict sub) =>
              sub' <- set_path (q :: rest) v sub ;;
              Ok (dict_set p (VDict sub')
                    match dict_get p d with
                    | None => dict_set p (VDict []) d
                    | Some _ => d
                    end)
          | _ => Raise TypeError
          end).
  destruct (dict_get p d) as [x|] eqn:E.
  - rewrite E; destruct x; reflexivity.
  - rewrite dict_get_set_same; reflexivity.
Qed.

(** The walk changes the dictionary under its first part only. *)
Lemma set_path_frame (p : str) (rest : list str) (v : value) (d d' : dict)
    (k : str) :
  set_path (p :: rest) v d = Ok d' -> k <> p -> dict_get k d' = dict_get k d.
Proof.
  intros H Hk; destruct rest as [|q rest].
  - injection H as <-; apply dict_get_set_other, Hk.
  - rewrite set_path_step in H.
    destruct (dict_get p d) as [x|] eqn:E.
    + destruct x; try discriminate H.
      destruct (set_path (q :: rest) v d0) as [sub'|]; [|discriminate H].
      injection H as <-; apply dict_get_set_other, Hk.
    + destruct (set_path (q :: rest) v []) as [sub'|]; [|discriminate H].
      injection H as <-.
      rewrite !dict_get_set_other by exact Hk; reflexivity.
Qed.

(** C6.  For a key with a dot, config-set walks the parts of the key and
    stores the value in the nested dictionary, but config-get looks the
    whole key up at the top level: after the set it shows for that key
    what it showed before.  In particular, for "a.b" with [a] absent or
    bound to a dictionary, the value is under [a], then [b], and
    config-get "a.b" does not retrieve it. *)
Theorem config_get_ignores_dotted_set (cfg cfg' : Config.t) (key value : str) :
  contains (lit ".") key = true ->
  config_set_body cfg key value = Ok cfg' ->
  config_get cfg' (Some key) = config_get cfg (Some key)
  /\ (forall a b sub,
        key = a ++ lit "." ++ b -> no_dot a = true -> no_dot b = true ->
        dict_get a cfg = None \/ dict_get a cfg = Some (VDict sub) ->
        exists sub',
          dict_get a cfg' = Some (VDict sub')
          /\ dict_get b sub' = Some (VStr value)).
Proof.
  intros Hdot Hset; unfold config_set_body in Hset; rewrite Hdot in Hset.
  split.
  - destruct (split_on_head 46%N key) as (p & rest & E & Hp).
    rewrite E in Hset.
    assert (Hne : key <> p).
    { intros ->; apply no_sep_not_contains in Hp.
      change [46%N] with (lit ".") in Hp; congruence. }
    destruct key as [|c key]; [discriminate Hdot|].
    unfold config_get, Config.get.
    rewrite (set_path_frame _ _ _ _ _ _ Hset Hne); reflexivity.
  - intros a b sub -> Ha Hb Hcur.
    change (lit ".") with [46%N] in Hset; cbn [app] in Hset.
    rewrite (StatsFacts.split_on_sep 46%N a b Ha) in Hset.
    rewrite (StatsFacts.split_on_plain 46%N b Hb) in Hset.
    rewrite set_path_step in Hset.
    destruct Hcur as [E|E]; rewrite E in Hset; cbn [set_path bind] in Hset;
      injection Hset as <-; eexists; split;
      first [apply dict_get_set_same
            |cbn [dict_get]; rewrite eqb_refl; reflexivity].
Qed.

(** [config-set model.anthropic x], then [config-get model.anthropic]:
    the value is stored under model, the answer is None. *)
Lemma config_get_ignores_dotted_set_witness :
  config_set_body Config.DEFAULT_CONFIG (lit "model.anthropic") (lit "x")
  = Ok Sample.cfg_model_x
  /\ config_get Sample.cfg_model_x (Some (lit "model.anthropic"))
     = One (lit "model.anthropic") VNone.
Proof.
  split; [reflexivity|].
  rewrite (proj1 (config_get_ignores_dotted_set Config.DEFAULT_CONFIG
                    Sample.cfg_model_x (lit "model.anthropic") (lit "x")
                    eq_refl eq_refl)).
  reflexivity.
Defined.

(** The same in a later process, which reads the file that was written;
    the table of config-get without a key does show the row. *)
Example dotted_set_then_reload :
  config_set Config.DEFAULT_CONFIG (lit "model.anthropic") (lit "x")
  = (Sample.cfg_model_x, Some Sample.cfg_model_x, 0)
  /\ match Config.load_config (Some (VDict Sample.cfg_model_x)) with
     | Ok cfg =>
         config_get cfg (Some (lit "model.anthropic"))
         = One (lit "model.anthropic") VNone
     | Raise _ => False
     end
  /\ In (lit "model.anthropic", VStr (lit "x"))
       (config_rows Sample.cfg_model_x).
Proof.
  repeat split; try (vm_compute; reflexivity).
  right; left; vm_compute; reflexivity.
Qed.

(** C6 as the specification words it fails at that input. *)
Lemma dotted_get_does_not_retrieve :
  ~ get_retrieves_as_stated Config.DEFAULT_CONFIG (lit "model.anthropic")
      (lit "x").
Proof.
  unfold get_retrieves_as_stated; vm_compute; discriminate.
Qed.

(** A key without a dot is set and retrieved at the top level. *)
Example plain_key_round_trip :
  get_retrieves_as_stated Config.DEFAULT_CONFIG (lit "provider") (lit "openai").
Proof. vm_compute; reflexivity. Qed.

(** A dotted key that runs into a value that is not a dictionary changes
    nothing and exits with status 1. *)
Example dotted_key_into_string :
  config_set Config.DEFAULT_CONFIG (lit "provider.name") (lit "x")
  = (Config.DEFAULT_CONFIG, None, 1).
Proof. vm_compute; reflexivity. Qed.

End ConfigFacts.

(** ** More on the configuration *)

Module ConfigMore.

Import Rest.

Lemma dict_get_none_iff (k : str) (d : dict) :
  dict_get k d = None <-> ~ In k (keys d).
Proof.
  induction d as [|[k0 v0] d IH]; simpl.
  - split; [intros _ []|reflexivity].
  - destruct (Str.eqb k k0) eqn:E.
    + apply eqb_eq in E; subst k0; split; [discriminate|].
      intros H; exfalso; apply H; left; reflexivity.
    + rewrite IH; split.
      * intros H [->|Hin]; [rewrite eqb_refl in E; discriminate|auto].
      * intros H Hin; apply H; right; exact Hin.
Qed.

Lemma dict_get_in (k : str) (v : value) (d : dict) :
  dict_get k d = Some v -> In (k, v) d.
Proof.
  induction d as [|[k0 v0] d IH]; simpl; [discriminate|].
  destruct (Str.eqb k k0) eqn:E.
  - apply eqb_eq in E; subst k0; intros H; injection H as ->; left; reflexivity.
  - intros H; right; apply IH, H.
Qed.

Lemma keys_dict_set (k : str) (v : value) (d : dict) :
  keys (dict_set k v d)
  = match dict_get k d with
    | Some _ => keys d
    | None => keys d ++ [k]
    end.
Proof.
  induction d as [|[k0 v0] d IH]; simpl; [reflexivity|].
  destruct (Str.eqb k k0) eqn:E; simpl.
  - apply eqb_eq in E; subst k0; reflexivity.
  - rewrite IH; destruct (dict_get k d); reflexivity.
Qed.

Lemma merge_get (user base : dict) (k : str) :
  NoDup (keys user) ->
  dict_get k (Config.merge base user)
  = match dict_get k user with
    | Some v => Some v
    | None => dict_get k base
    end.
Proof.
  unfold Config.merge; revert base.
  induction user as [|[k0 v0] user IH]; intros base Hnd; simpl; [reflexivity|].
  inversion Hnd as [|? ? Hnotin Hnd']; subst.
  rewrite (IH _ Hnd').
  destruct (Str.eqb k k0) eqn:E.
  - apply eqb_eq in E; subst k0.
    apply dict_get_none_iff in Hnotin; rewrite Hnotin.
    apply dict_get_set_same.
  - destruct (dict_get k user); [reflexivity|].
    apply dict_get_set_other; intros ->; rewrite eqb_refl in E; discriminate.
Qed.

(** X1.  Loading a file that holds a mapping merges it over the defaults
    key by key at the top level: a key of the file has the file's value
    (whole, also when it is itself a mapping), any other key has its
    default.  So every default key is bound after such a load, and
    [provider] and [commit_types] do not raise.  A file that holds
    anything else (an empty file is None) makes the load raise TypeError;
    without a file the configuration is the defaults. *)
Theorem load_config_lookup (user : dict) (k : str) :
  NoDup (keys user) ->
  (exists cfg,
     Config.load_config (Some (VDict user)) = Ok cfg
     /\ dict_get k cfg
        = match dict_get k user with
          | Some v => Some v
          | None => dict_get k Config.DEFAULT_CONFIG
          end
     /\ (In k (keys Config.DEFAULT_CONFIG) -> dict_get k cfg <> None)
     /\ (exists p, Config.provider cfg = Ok p)
     /\ (exists t, Config.commit_types cfg = Ok t))
  /\ (forall v,
        match v with
        | VDict _ => True
        | _ => Config.load_config (Some v) = Raise TypeError
        end)
  /\ Config.load_config None = Ok Config.DEFAULT_CONFIG.
Proof.
  intros Hnd.
  set (cfg := Config.merge Config.DEFAULT_CONFIG user).
  assert (Hget : forall key,
            dict_get key cfg
            = match dict_get key user with
              | Some v => Some v
              | None => dict_get key Config.DEFAULT_CONFIG
              end)
    by (intros key; apply merge_get, Hnd).
  assert (Hdef : forall key, In key (keys Config.DEFAULT_CONFIG) ->
            dict_get key cfg <> None).
  { intros key Hin; rewrite Hget.
    destruct (dict_get key user); [discriminate|].
    intros H; apply dict_get_none_iff in H; contradiction. }
  split; [|split].
  - exists cfg; split; [reflexivity|]; repeat split.
    + apply Hget.
    + apply Hdef.
    + unfold Config.provider, dict_index.
      destruct (dict_get (lit "provider") cfg) eqn:E;
        [eexists; reflexivity|].
      exfalso; apply (Hdef (lit "provider")); [left; reflexivity|exact E].
    + unfold Config.commit_types, dict_index.
      destruct (dict_get (lit "commit_types") cfg) eqn:E;
        [eexists; reflexivity|].
      exfalso; apply (Hdef (lit "commit_types"));
        [do 2 right; left; reflexivity|exact E].
  - intros v; destruct v; try reflexivity; exact I.
  - reflexivity.
Qed.

Lemma load_config_lookup_witness :
  exists cfg,
    Config.load_config
      (Some (VDict [ (lit "model",
                      VDict [(lit "openai", VStr (lit "gpt-4o"))]) ]))
    = Ok cfg
    /\ dict_get (lit "model") cfg
       = Some (VDict [(lit "openai", VStr (lit "gpt-4o"))])
    /\ dict_get (lit "temperature") cfg = Some (VFloat Num.f0_3).
Proof.
  destruct (load_config_lookup
              [ (lit "model", VDict [(lit "openai", VStr (lit "gpt-4o"))]) ]
              (lit "model")
              (NoDup_cons _ (fun H : In _ [] => H) (NoDup_nil _)))
    as ((cfg & Hload & Hmodel & _) & _ & _).
  exists cfg; split; [exact Hload|split].
  - rewrite Hmodel; reflexivity.
  - injection Hload as <-; reflexivity.
Defined.

(** A file that names models only for some providers leaves the others
    without one: the merge does not reach into the mapping. *)
Example partial_model_mapping :
  (cfg <- Config.load_config
            (Some (VDict [ (lit "model",
                            VDict [(lit "openai", VStr (lit "gpt-4o"))]) ])) ;;
   Config.model cfg)
  = Raise (KeyError (lit "anthropic")).
Proof. vm_compute; reflexivity. Qed.

(** An empty file, or one that holds a list or a scalar, cannot be
    loaded. *)
Example load_empty_file : Config.load_config (Some VNone) = Raise TypeError.
Proof. reflexivity. Qed.

Example load_list_file :
  Config.load_config (Some (VList [VStr (lit "provider")])) = Raise TypeError.
Proof. reflexivity. Qed.

Lemma nodup_snoc {A : Type} (l : list A) (x : A) :
  NoDup l -> ~ In x l -> NoDup (l ++ [x]).
Proof.
  induction l as [|y l IH]; simpl; intros Hnd Hx.
  - constructor; [intros []|constructor].
  - inversion Hnd as [|? ? Hy Hl]; subst; constructor.
    + rewrite in_app_iff; intros [H|[H|[]]]; [contradiction|].
      apply Hx; left; symmetry; exact H.
    + apply IH; [exact Hl|]; intros H; apply Hx; right; exact H.
Qed.

(** X2.  [set] then [get] of the same key gives the value that was set; no
    other key is affected; a key that was bound keeps its place and a new
    one goes last, so the keys stay distinct; setting twice is setting the
    last value. *)
Theorem config_set_get (c : Config.t) (k : str) (v dflt : value) :
  Config.get (Config.set c k v) k dflt = v
  /\ (forall k', k' <> k ->
        Config.get (Config.set c k v) k' dflt = Config.get c k' dflt)
  /\ keys (Config.set c k v)
     = (if existsb (Str.eqb k) (keys c) then keys c else keys c ++ [k])
  /\ (NoDup (keys c) -> NoDup (keys (Config.set c k v)))
  /\ (forall v', Config.set (Config.set c k v') k v = Config.set c k v).
Proof.
  assert (Hex : existsb (Str.eqb k) (keys c)
                = match dict_get k c with Some _ => true | None => false end).
  { induction c as [|[k0 v0] c IH]; simpl; [reflexivity|].
    destruct (Str.eqb k k0); [reflexivity|exact IH]. }
  repeat split.
  - unfold Config.get, Config.set; rewrite dict_get_set_same; reflexivity.
  - intros k' Hne; unfold Config.get, Config.set.
    rewrite dict_get_set_other by exact Hne; reflexivity.
  - unfold Config.set; rewrite keys_dict_set, Hex.
    destruct (dict_get k c); reflexivity.
  - intros Hnd; unfold Config.set; rewrite keys_dict_set.
    destruct (dict_get k c) eqn:E; [exact Hnd|].
    apply dict_get_none_iff in E.
    apply nodup_snoc; assumption.
  - intros v'; apply SessionFacts.dict_set_set.
Qed.

End ConfigMore.

(** ** More on the prompt and the configuration it reads *)

Module PromptMore.

Import GitUtils LLM Cli.

Lemma get_set_other (c : Config.t) (k k' : str) (v dflt : value) :
  k' <> k -> Config.get (Config.set c k v) k' dflt = Config.get c k' dflt.
Proof.
  intros H; unfold Config.get, Config.set.
  rewrite dict_get_set_other by exact H; reflexivity.
Qed.

(** X3.  The prompt reads two keys of the configuration, max_diff_length
    and commit_types, and a generation one more, temperature: setting any
    other key (default_style as the setup wizard does, use_toon, and,
    once the client is built, provider or model) changes neither the
    prompt nor the request. *)
Theorem generation_reads_three_keys (cfg : Config.t) (key : str) (v : value)
    (diff : str) (s : summary) (commits : list commit_record) (style : str) :
  key <> lit "max_diff_length" ->
  key <> lit "commit_types" ->
  generation_prompt (Config.set cfg key v) diff s commits style
  = generation_prompt cfg diff s commits style
  /\ (key <> lit "temperature" ->
      forall k c,
        generate_commit_message k (Config.set cfg key v) c diff s commits style
        = generate_commit_message k cfg c diff s commits style).
Proof.
  intros H1 H2.
  assert (Hp : forall d, _build_prompt (Config.set cfg key v) d s commits style
                         = _build_prompt cfg d s commits style).
  { intros d; unfold _build_prompt, Config.commit_types, dict_index, Config.set.
    rewrite dict_get_set_other by (intros E; apply H2; symmetry; exact E).
    reflexivity. }
  assert (Ht : truncate_diff (Config.set cfg key v) diff = truncate_diff cfg diff).
  { unfold truncate_diff.
    rewrite get_set_other by (intros E; apply H1; symmetry; exact E).
    reflexivity. }
  assert (Hg : generation_prompt (Config.set cfg key v) diff s commits style
               = generation_prompt cfg diff s commits style).
  { unfold generation_prompt; rewrite Ht.
    destruct (truncate_diff cfg diff); [apply Hp|reflexivity]. }
  split; [exact Hg|].
  intros H3 k c; unfold generate_commit_message; rewrite Hg.
  destruct (generation_prompt cfg diff s commits style); [|reflexivity].
  cbn [bind]; unfold _generate.
  rewrite get_set_other by (intros E; apply H3; symmetry; exact E).
  reflexivity.
Qed.

Lemma generation_reads_three_keys_witness :
  generation_prompt
    (Config.set Config.DEFAULT_CONFIG (lit "default_style")
       (VStr (lit "semantic")))
    (lit "+x") Sample.api_py_added [] (lit "conventional")
  = generation_prompt Config.DEFAULT_CONFIG (lit "+x") Sample.api_py_added []
      (lit "conventional").
Proof.
  apply (generation_reads_three_keys Config.DEFAULT_CONFIG
           (lit "default_style") (VStr (lit "semantic")) (lit "+x")
           Sample.api_py_added [] (lit "conventional"));
    vm_compute; discriminate.
Defined.

(** X4.  config-set stores what it is given as a string.  After
    [config-set max_diff_length V], whatever [V] is, the bound is a string
    and every generation raises TypeError at the comparison with the
    length of the diff, before the prompt is built and whatever the
    provider. *)
Theorem config_set_bound_breaks_generation (cfg : Config.t) (value : str) :
  let cfg' := Config.set cfg (lit "max_diff_length") (VStr value) in
  config_set cfg (lit "max_diff_length") value = (cfg', Some cfg', 0)
  /\ forall k c diff s commits style,
       truncate_diff cfg' diff = Raise TypeError
       /\ generate_commit_message k cfg' c diff s commits style
          = Raise TypeError.
Proof.
  intros cfg'; split; [reflexivity|].
  intros k c diff s commits style.
  assert (Ht : truncate_diff cfg' diff = Raise TypeError).
  { unfold truncate_diff, cfg'.
    rewrite SessionFacts.get_set_same; reflexivity. }
  split; [exact Ht|].
  unfold generate_commit_message, generation_prompt; rewrite Ht; reflexivity.
Qed.

(** X5.  After [config-set temperature V] the temperature is a string:
    requests carry it as it is, and Regenerate raises TypeError at
    [original_temp + 0.2], which ends the commit command with status 1. *)
Theorem config_set_temperature_breaks_regenerate (cfg : Config.t)
    (value : str) (st0 : state) :
  let cfg' := Config.set cfg (lit "temperature") (VStr value) in
  let st := with_config cfg' st0 in
  config_set cfg (lit "temperature") value = (cfg', Some cfg', 0)
  /\ regenerate st = Raise TypeError
  /\ (forall k c prompt,
        _generate k cfg' c prompt
        = (response <-
             create k (client_handle c)
               {| rq_model := model c; rq_max_tokens := 500;
                  rq_temperature := VStr value; rq_content := prompt |} ;;
           first_text response))
  /\ (forall k llm r a message rest,
        no_edit a = false ->
        answers a = Regenerate :: rest ->
        catch (commit_finish k llm r a message st)
        = Exit 1 (say (Failure (lit "Error:") TypeError) (say Menu st))).
Proof.
  intros cfg' st.
  assert (Hr : forall s, config s = cfg' -> regenerate s = Raise TypeError).
  { intros s Hs; unfold regenerate, regen_enter; rewrite Hs; unfold cfg'.
    rewrite SessionFacts.get_set_same; reflexivity. }
  repeat split.
  - apply Hr; reflexivity.
  - intros k c prompt; unfold _generate, cfg'.
    rewrite SessionFacts.get_set_same; reflexivity.
  - intros k llm r a message rest Hedit Hans.
    unfold commit_finish; rewrite Hedit, Hans.
    cbn [_interactive_edit]; rewrite Hr by reflexivity; reflexivity.
Qed.

(** X6.  With a non-negative integer bound [m] the text that stands for the
    diff in the prompt is the diff itself when it has at most [m]
    characters and has exactly [m + 21] characters otherwise: never more
    than [m + 21], though more than the diff had when that was between
    [m + 1] and [m + 20] characters long. *)
Theorem truncated_diff_length (cfg : Config.t) (diff : str) (m : Z) :
  Config.get cfg (lit "max_diff_length") (VInt 4000) = VInt m ->
  0 <= m ->
  exists d,
    truncate_diff cfg diff = Ok d
    /\ (Z.of_nat (List.length diff) <= m -> d = diff)
    /\ (m < Z.of_nat (List.length diff) ->
        Z.of_nat (List.length d) = m + 21)
    /\ Z.of_nat (List.length d) <= m + 21.
Proof.
  intros Hm Hpos.
  rewrite (PromptFacts.truncate_diff_int _ _ _ Hm).
  eexists; split; [reflexivity|].
  destruct (Z.ltb_spec m (Z.of_nat (List.length diff))) as [Hlt|Hle].
  - assert (Hlen : Z.of_nat (List.length (slice_to diff m ++ truncation_marker))
                   = m + 21).
    { rewrite PromptFacts.slice_to_nonneg by exact Hpos.
      rewrite List.length_app, List.firstn_length_le by lia.
      change (List.length truncation_marker) with 21%nat; lia. }
    split; [intros H; lia|split; [intros _; exact Hlen|lia]].
  - split; [intros _; reflexivity|split; [intros H; lia|lia]].
Qed.

Lemma truncated_diff_length_witness :
  exists d,
    truncate_diff Sample.cfg_max3 (lit "abcd") = Ok d
    /\ List.length d = 24%nat.
Proof.
  destruct (truncated_diff_length Sample.cfg_max3 (lit "abcd") 3 eq_refl)
    as (d & Hd & _ & Hlen & _); [lia|].
  exists d; split; [exact Hd|].
  specialize (Hlen ltac:(vm_compute; reflexivity)); lia.
Defined.

End PromptMore.

(** ** More on dotted keys *)

Module DottedMore.

Import Cli StatedCli Rest.

Lemma get_path_step (p q : str) (rest : list str) (d : dict) :
  get_path (p :: q :: rest) d
  = match dict_get p d with
    | Some (VDict sub) => get_path (q :: rest) sub
    | _ => None
    end.
Proof. reflexivity. Qed.

Lemma blocked_step (p q : str) (rest : list str) (d : dict) :
  blocked (p :: q :: rest) d
  = match dict_get p d with
    | Some (VDict sub) => blocked (q :: rest) sub
    | Some _ => true
    | None => false
    end.
Proof. reflexivity. Qed.

Lemma blocked_empty (parts : list str) : blocked parts [] = false.
Proof. destruct parts as [|p [|q rest]]; reflexivity. Qed.

Lemma set_path_spec (v : value) (parts : list str) :
  parts <> [] ->
  forall d,
    if blocked parts d then set_path parts v d = Raise TypeError
    else exists d', set_path parts v d = Ok d' /\ get_path parts d' = Some v.
Proof.
  induction parts as [|p parts IH]; intros Hne d; [contradiction|].
  destruct parts as [|q rest].
  - simpl; eexists; split; [reflexivity|apply dict_get_set_same].
  - rewrite blocked_step, ConfigFacts.set_path_step.
    assert (Hq : q :: rest <> []) by discriminate.
    destruct (dict_get p d) as [x|] eqn:E.
    + destruct x; try reflexivity.
      specialize (IH Hq d0).
      destruct (blocked (q :: rest) d0).
      * rewrite IH; reflexivity.
      * destruct IH as (sub' & Hs & Hg); rewrite Hs; cbn [bind].
        eexists; split; [reflexivity|].
        rewrite get_path_step, dict_get_set_same; exact Hg.
    + specialize (IH Hq []); rewrite blocked_empty in IH.
      destruct IH as (sub' & Hs & Hg); rewrite Hs; cbn [bind].
      eexists; split; [reflexivity|].
      rewrite get_path_step, dict_get_set_same; exact Hg.
Qed.




Lemma rows_nested (cfg : Config.t) (k b : str) (sub : dict) (x : value) :
  In (k, VDict sub) cfg -> In (b, x) sub ->
  In (k ++ lit "." ++ b, x) (config_rows cfg).
Proof.
  intros Hk Hb; unfold config_rows; apply in_flat_map.
  exists (k, VDict sub); split; [exact Hk|].
  simpl; apply in_map_iff; exists (b, x); split; [reflexivity|exact Hb].
Qed.

(** X8.  The table of config-get without a key shows nested values under
    dotted names, and config-set writes through them: after
    [config-set a.b V] succeeds, the table has the row "a.b" with [V]. *)
Theorem dotted_set_shows_in_table (cfg cfg' : Config.t) (a b value : str) :
  no_dot a = true -> no_dot b = true ->
  config_set_body cfg (a ++ lit "." ++ b) value = Ok cfg' ->
  config_get cfg' None = Rows (config_rows cfg')
  /\ In (a ++ lit "." ++ b, VStr value) (config_rows cfg').
Proof.
  intros Ha Hb Hset; split; [reflexivity|].
  assert (Hdot : contains (lit ".") (a ++ lit "." ++ b) = true)
    by apply contains_intro.
  unfold config_set_body in Hset; rewrite Hdot in Hset.
  change (lit ".") with [46%N] in Hset; cbn [app] in Hset.
  rewrite (StatsFacts.split_on_sep 46%N a b Ha) in Hset.
  rewrite (StatsFacts.split_on_plain 46%N b Hb) in Hset.
  pose proof (set_path_spec (VStr value) [a; b] ltac:(discriminate) cfg) as H.
  destruct (blocked [a; b] cfg); [congruence|].
  destruct H as (d' & Hs & Hg).
  rewrite Hs in Hset; injection Hset as <-.
  rewrite get_path_step in Hg.
  destruct (dict_get a d') as [x|] eqn:E; [|discriminate Hg].
  destruct x; try discriminate Hg.
  apply (rows_nested d' a b d); apply ConfigMore.dict_get_in; assumption.
Qed.

Lemma dotted_set_shows_in_table_witness :
  In (lit "model.anthropic", VStr (lit "x"))
    (config_rows Sample.cfg_model_x).
Proof.
  apply (dotted_set_shows_in_table Config.DEFAULT_CONFIG Sample.cfg_model_x
           (lit "model") (lit "anthropic") (lit "x") eq_refl eq_refl eq_refl).
Defined.

End DottedMore.

(** ** More on [strip()] and [split()] *)

Module StripFacts.

Import Rest.

Lemma lstrip_suffix (s : str) :
  exists p, s = p ++ lstrip s /\ forallb is_space p = true.
Proof.
  induction s as [|c s (p & E & Hp)]; simpl.
  - exists []; split; reflexivity.
  - destruct (is_space c) eqn:Ec.
    + exists (c :: p); split; [rewrite E at 1; reflexivity|].
      simpl; rewrite Ec, Hp; reflexivity.
    + exists []; split; reflexivity.
Qed.

Lemma lstrip_head_ns (s t : str) (c : char) :
  lstrip s = c :: t -> is_space c = false.
Proof.
  induction s as [|a s IH]; simpl; [discriminate|].
  destruct (is_space a) eqn:Ea; [exact IH|].
  intros H; injection H as <- _; exact Ea.
Qed.

Lemma rstrip_prefix (s : str) :
  exists q, s = rstrip s ++ q /\ forallb is_space q = true.
Proof.
  unfold rstrip; destruct (lstrip_suffix (rev s)) as (p & E & Hp).
  exists (rev p); split.
  - rewrite <- rev_app_distr, <- E, rev_involutive; reflexivity.
  - rewrite forallb_forall in *; intros x Hx; apply Hp, in_rev, Hx.
Qed.

Lemma rstrip_last_ns (s : str) (d : char) :
  rstrip s <> [] -> is_space (last (rstrip s) d) = false.
Proof.
  unfold rstrip; destruct (lstrip (rev s)) as [|c t] eqn:E.
  - intros H; contradiction H; reflexivity.
  - intros _; simpl; rewrite last_last.
    apply (lstrip_head_ns _ _ _ E).
Qed.

Lemma strip_stripped (s : str) : stripped (strip s).
Proof.
  unfold stripped, strip.
  destruct (rstrip (lstrip s)) as [|c r] eqn:E; [exact I|].
  split.
  - destruct (lstrip s) as [|a u] eqn:El; [discriminate E|].
    pose proof (lstrip_head_ns _ _ _ El) as Ha.
    destruct (rstrip_prefix (a :: u)) as (q & Eq & _).
    rewrite E in Eq; injection Eq as -> _; exact Ha.
  - rewrite <- E; apply rstrip_last_ns; rewrite E; discriminate.
Qed.

Lemma strip_keeps_stripped (s : str) : stripped s -> strip s = s.
Proof.
  unfold stripped, strip; destruct s as [|c s]; [reflexivity|].
  intros [Hc Hl].
  rewrite StatsFacts.lstrip_head by exact Hc.
  rewrite (app_removelast_last c (l := c :: s)) by discriminate.
  apply StatsFacts.rstrip_last; exact Hl.
Qed.

Lemma has_ns_rev (s : str) : has_ns (rev s) = has_ns s.
Proof.
  unfold has_ns; induction s as [|c s IH]; simpl; [reflexivity|].
  rewrite existsb_app, IH; simpl; rewrite orb_false_r; apply orb_comm.
Qed.

Lemma has_ns_lstrip (s : str) : has_ns (lstrip s) = has_ns s.
Proof.
  unfold has_ns; induction s as [|c s IH]; simpl; [reflexivity|].
  destruct (is_space c) eqn:Ec; simpl; [exact IH|].
  rewrite Ec; reflexivity.
Qed.

Lemma has_ns_strip (s : str) : has_ns (strip s) = has_ns s.
Proof.
  unfold strip, rstrip.
  rewrite has_ns_rev, has_ns_lstrip, has_ns_rev; apply has_ns_lstrip.
Qed.

Lemma words_aux_nil (s cur : str) :
  words_aux cur s = [] -> cur = [] /\ has_ns s = false.
Proof.
  revert cur; induction s as [|c s IH]; intros cur; simpl.
  - destruct cur; [split; reflexivity|discriminate].
  - destruct (is_space c) eqn:Ec; simpl.
    + destruct cur; [|discriminate].
      intros H; destruct (IH _ H) as [_ Hs]; split; [reflexivity|exact Hs].
    + intros H; destruct (IH _ H) as [Hcur _]; discriminate Hcur.
Qed.

Lemma contains_has_ns (needle s : str) :
  has_ns needle = true -> contains needle s = true -> has_ns s = true.
Proof.
  intros Hn Hc; destruct (contains_inv _ _ Hc) as (a & b & ->).
  unfold has_ns in *; rewrite !existsb_app, Hn.
  rewrite orb_true_r; reflexivity.
Qed.

End StripFacts.

(** ** More on git_utils.py *)

Module GitMore.

Import GitUtils Rest.

Lemma type_is_eq (t : option str) (c : string) :
  type_is t c = true -> t = Some (lit c).
Proof.
  destruct t as [u|]; simpl; [|discriminate].
  intros H; apply eqb_eq in H; subst; reflexivity.
Qed.

Lemma summary_step_counters (s : summary) (i : diff_item) :
  additions (summary_step s i)
  = additions s + (if has_type "A" i then 1 else 0)
  /\ deletions (summary_step s i)
     = deletions s + (if has_type "D" i then 1 else 0)
  /\ modifications (summary_step s i)
     = modifications s + (if has_type "M" i then 1 else 0).
Proof.
  unfold summary_step, has_type.
  destruct (type_is (change_type i) "A") eqn:EA.
  - rewrite (type_is_eq _ _ EA); simpl; repeat split; lia.
  - destruct (type_is (change_type i) "D") eqn:ED.
    + rewrite (type_is_eq _ _ ED); simpl; repeat split; lia.
    + destruct (type_is (change_type i) "M") eqn:EM; simpl;
        repeat split; lia.
Qed.

Lemma summary_counters_loop (diff : list diff_item) (s0 : summary) :
  let s := fold_left summary_step diff s0 in
  additions s = additions s0 + how_many "A" diff
  /\ deletions s = deletions s0 + how_many "D" diff
  /\ modifications s = modifications s0 + how_many "M" diff.
Proof.
  revert s0; induction diff as [|i diff IH]; intros s0; simpl.
  - unfold how_many; simpl; repeat split; lia.
  - destruct (IH (summary_step s0 i)) as (Ha & Hd & Hm).
    destruct (summary_step_counters s0 i) as (Ha' & Hd' & Hm').
    rewrite Ha, Hd, Hm, Ha', Hd', Hm'.
    unfold how_many; simpl.
    destruct (has_type "A" i), (has_type "D" i), (has_type "M" i); simpl;
      repeat split; lia.
Qed.

(** X9.  Each counter of the summary is the number of entries of its own
    change type: additions the entries of type A, deletions those of type
    D, modifications those of type M; entries of any other type move no
    counter. *)
Theorem diff_summary_counters (diff : list diff_item) :
  let s := get_diff_summary diff in
  additions s = how_many "A" diff
  /\ deletions s = how_many "D" diff
  /\ modifications s = how_many "M" diff.
Proof.
  intros s; destruct (summary_counters_loop diff empty_summary)
    as (Ha & Hd & Hm).
  fold (get_diff_summary diff) in Ha, Hd, Hm; fold s in Ha, Hd, Hm.
  simpl in Ha, Hd, Hm; repeat split; assumption.
Qed.

(** *** What [get_commit_stats] can raise *)

Lemma stats_step_outcome (t : Z) (part : str) :
  (exists t', stats_step (Ok t) part = Ok t')
  \/ (exists w, stats_step (Ok t) part = Raise (ValueError w)).
Proof.
  unfold stats_step; cbn [bind].
  destruct (contains (lit "insertion") part || contains (lit "deletion") part)
    eqn:E; [|left; eexists; reflexivity].
  assert (Hns : has_ns part = true).
  { apply orb_true_iff in E as [E|E];
      [apply (StripFacts.contains_has_ns (lit "insertion"))
      |apply (StripFacts.contains_has_ns (lit "deletion"))];
      try exact E; reflexivity. }
  destruct (words (strip part)) as [|w ws] eqn:Ew.
  - apply StripFacts.words_aux_nil in Ew as [_ Hw].
    rewrite StripFacts.has_ns_strip in Hw; congruence.
  - unfold Dec.py_int.
    match goal with
    | |- context [match ?r with Some _ => _ | None => _ end] => destruct r
    end; cbn [bind]; [left|right]; eexists; reflexivity.
Qed.

Lemma stats_fold_raise (parts : list str) (e : exn) :
  fold_left stats_step parts (Raise e) = Raise e.
Proof. induction parts as [|p parts IH]; simpl; [reflexivity|exact IH]. Qed.

Lemma stats_fold_outcome (parts : list str) (t : Z) :
  (exists t', fold_left stats_step parts (Ok t) = Ok t')
  \/ (exists w, fold_left stats_step parts (Ok t) = Raise (ValueError w)).
Proof.
  revert t; induction parts as [|p parts IH]; intros t; cbn [fold_left].
  - left; eexists; reflexivity.
  - destruct (stats_step_outcome t p) as [[t' E]|[w E]]; rewrite E.
    + apply IH.
    + right; exists w; apply stats_fold_raise.
Qed.

Lemma stats_outcome (diff : list diff_item) (text : str) :
  (exists t, get_commit_stats diff text
             = Ok (Z.of_nat (List.length diff), t))
  \/ (exists w, get_commit_stats diff text = Raise (ValueError w)).
Proof.
  unfold get_commit_stats; destruct text as [|c text].
  - left; eexists; reflexivity.
  - destruct (stats_fold_outcome (tl (split_on 44%N (c :: text))) 0)
      as [[t E]|[w E]]; rewrite E; [left|right]; eexists; reflexivity.
Qed.

(** X10.  [get_commit_stats] either answers with the number of entries of
    the index diff and a total, or raises ValueError (a part that mentions
    an insertion or a deletion and does not start with a number): the
    index [split()[0]] is never out of range.  The part before the first
    comma is skipped whatever it says, so a text without a comma gives
    total 0. *)
Theorem commit_stats_outcomes (diff : list diff_item) (text : str) :
  (forall e, get_commit_stats diff text = Raise e -> exists w, e = ValueError w)
  /\ (forall n t, get_commit_stats diff text = Ok (n, t) ->
        n = Z.of_nat (List.length diff))
  /\ (Shortstat.no_comma text = true ->
      get_commit_stats diff text = Ok (Z.of_nat (List.length diff), 0)).
Proof.
  repeat split.
  - intros e H; destruct (stats_outcome diff text) as [[t E]|[w E]];
      rewrite E in H; [discriminate|].
    injection H as <-; exists w; reflexivity.
  - intros n t H; destruct (stats_outcome diff text) as [[t' E]|[w E]];
      rewrite E in H; [|discriminate].
    injection H as <- _; reflexivity.
  - intros H; unfold get_commit_stats.
    rewrite (StatsFacts.split_on_plain 44%N text H).
    destruct text; reflexivity.
Qed.

Example commit_stats_not_a_number :
  get_commit_stats [] (lit "1 file changed, some insertions")
  = Raise (ValueError (lit "some")).
Proof. vm_compute; reflexivity. Qed.

Example commit_stats_first_part_skipped :
  get_commit_stats [] (lit "3 insertions(+)") = Ok (0, 0).
Proof. vm_compute; reflexivity. Qed.

(** *** Staged files, recent commits, history *)

Lemma summary_entries (diff : list diff_item) :
  files_changed (get_diff_summary diff) = List.map SummarySpec.entry diff.
Proof.
  destruct (SummaryFacts.summary_loop diff empty_summary) as [H _].
  exact H.
Qed.

(** X11.  [get_staged_files] lists the [a_path] of every entry, in order;
    the summary lists [a_path or b_path], so the two agree on every entry
    whose [a_path] is a non-empty string and differ on an entry without
    one (where the summary falls back to [b_path]). *)
Theorem staged_files_and_summary (diff : list diff_item) :
  List.length (get_staged_files diff) = List.length diff
  /\ ((forall i, In i diff -> exists c p, a_path i = Some (c :: p)) ->
      List.map path (files_changed (get_diff_summary diff))
      = get_staged_files diff)
  /\ (forall i, In i diff -> a_path i = None \/ a_path i = Some [] ->
      In (b_path i)
        (List.map path (files_changed (get_diff_summary diff)))).
Proof.
  rewrite summary_entries; unfold get_staged_files.
  rewrite List.map_map; repeat split.
  - apply List.length_map.
  - intros H; apply map_ext_in; intros i Hi.
    destruct (H i Hi) as (c & p & E); simpl; rewrite E; reflexivity.
  - intros i Hi Ha; apply in_map_iff; exists i; split; [|exact Hi].
    simpl; destruct Ha as [E|E]; rewrite E; reflexivity.
Qed.

Lemma slice_to_7 (s : str) :
  (List.length (slice_to s 7) <= 7)%nat
  /\ (exists r, s = slice_to s 7 ++ r)
  /\ ((7 <= List.length s)%nat -> List.length (slice_to s 7) = 7%nat).
Proof.
  change (slice_to s 7) with (firstn 7 s); repeat split.
  - apply firstn_le_length.
  - exists (skipn 7 s); symmetry; apply firstn_skipn.
  - intros H; apply firstn_length_le, H.
Qed.

(** X12.  A record of [get_recent_commits] carries the first 7 characters
    of the commit's id (all of it when it is shorter), the message
    stripped of surrounding whitespace and the author's name; there is one
    record per commit the backend yields, in its order. *)
Theorem recent_commit_records (iter_commits : Z -> list raw_commit)
    (count : Z) :
  let records := get_recent_commits iter_commits count in
  List.length records = List.length (iter_commits count)
  /\ List.map author records = List.map author_name (iter_commits count)
  /\ forall r, In r records ->
       exists c,
         In c (iter_commits count)
         /\ (List.length (hash r) <= 7)%nat
         /\ (exists rest, hexsha c = hash r ++ rest)
         /\ ((7 <= List.length (hexsha c))%nat ->
             List.length (hash r) = 7%nat)
         /\ message r = strip (raw_message c)
         /\ stripped (message r)
         /\ author r = author_name c.
Proof.
  intros records; unfold records, get_recent_commits; repeat split.
  - apply List.length_map.
  - rewrite List.map_map; reflexivity.
  - intros r Hr; apply in_map_iff in Hr as (c & <- & Hc).
    exists c; destruct (slice_to_7 (hexsha c)) as (H1 & H2 & H3).
    repeat split; try assumption.
    apply StripFacts.strip_stripped.
Qed.

Lemma split_on_first (sep : char) (s : str) :
  exists first rest,
    split_on sep s = first :: rest
    /\ forallb (fun c => negb (char_eqb c sep)) first = true
    /\ (s = first \/ exists tail, s = first ++ sep :: tail).
Proof.
  induction s as [|c s (f & r & E & Hf & Hs)]; simpl.
  - exists [], []; repeat split; left; reflexivity.
  - destruct (char_eqb c sep) eqn:Ec.
    + apply N.eqb_eq in Ec; subst c.
      exists [], (split_on sep s); repeat split.
      right; exists s; reflexivity.
    + rewrite E; exists (c :: f), r; repeat split.
      * simpl; rewrite Ec; exact Hf.
      * destruct Hs as [->|[tail ->]]; [left|right; exists tail];
          reflexivity.
Qed.

(** X13.  A row of the demo's history table shows the first 7 characters
    of the commit's id and the first line of its message: the text up to
    the first newline, all of it when there is none. *)
Theorem history_row_first_line (c : raw_commit) :
  let row := history_row c in
  fst row = slice_to (hexsha c) 7
  /\ contains nl (snd row) = false
  /\ (raw_message c = snd row
      \/ exists tail, raw_message c = snd row ++ nl ++ tail).
Proof.
  unfold history_row; cbn [fst snd].
  destruct (split_on_first 10%N (raw_message c)) as (f & r & E & Hf & Hs).
  rewrite E; cbn [hd]; repeat split.
  - apply ConfigFacts.no_sep_not_contains, Hf.
  - exact Hs.
Qed.

End GitMore.

(** ** More on llm_client.py *)

Module LLMMore.

Import LLM Rest.

Lemma model_lookup (cfg : Config.t) (p : str) (d : dict) :
  Config.provider cfg = Ok (VStr p) ->
  dict_get (lit "model") cfg = Some (VDict d) ->
  Config.model cfg = dict_index p d.
Proof.
  intros Hp Hm; unfold Config.model, dict_index at 1.
  rewrite Hm; cbn [bind]; rewrite Hp; reflexivity.
Qed.

(** X14.  [__init__] looks the model up under the configured provider
    before it looks at the provider's name.  A provider that has no entry
    in the model mapping therefore ends in KeyError, whatever its name;
    "Unsupported provider" is reached only by a name other than the three
    that does have an entry.  In neither case is an SDK client built. *)
Theorem init_unknown_provider (k : sdk) (cfg : Config.t) (e : Config.env)
    (p : str) (d : dict) :
  Config.provider cfg = Ok (VStr p) ->
  dict_get (lit "model") cfg = Some (VDict d) ->
  (dict_get p d = None -> init k cfg e None = Raise (KeyError p))
  /\ (forall m,
        dict_get p d = Some m ->
        p <> lit "anthropic" -> p <> lit "openai" -> p <> lit "ollama" ->
        init k cfg e None = Raise (UnsupportedProvider (VStr p))).
Proof.
  intros Hp Hm; pose proof (model_lookup _ _ _ Hp Hm) as Hmodel.
  unfold init; rewrite Hp, Hmodel; unfold dict_index; cbn [bind]; split.
  - intros ->; reflexivity.
  - intros m -> H1 H2 H3; cbn [bind is_str].
    rewrite !eqb_neq by assumption; reflexivity.
Qed.

Lemma init_unknown_provider_witness :
  init Session.sdk_up (Env.cfg_provider "gemini") Sample.no_env None
  = Raise (KeyError (lit "gemini")).
Proof.
  refine (proj1 (init_unknown_provider Session.sdk_up
                   (Env.cfg_provider "gemini") Sample.no_env (lit "gemini")
                   [ (lit "anthropic", VStr (lit "claude-sonnet-4-20250514"));
                     (lit "openai", VStr (lit "gpt-4-turbo-preview"));
                     (lit "ollama", VStr (lit "llama2")) ]
                   eq_refl eq_refl) eq_refl).
Defined.

(** X15.  A provider passed to [__init__] decides which client is built,
    but the model and the API key are those of the configured provider:
    [LLMClient("openai")] under a configuration for another provider
    builds the OpenAI client with that other provider's key and model. *)
Theorem init_explicit_provider (k : sdk) (cfg : Config.t) (e : Config.env)
    (m : value) (key : option str) :
  Config.model cfg = Ok m ->
  Config.api_key cfg e = Ok key ->
  init k cfg e (Some (lit "openai"))
  = (_ <- construct k (OpenAI None key) ;;
     Ok {| provider := VStr (lit "openai"); model := m;
           client_handle := OpenAI None key |})
  /\ init k cfg e (Some (lit "anthropic"))
     = (_ <- construct k (Anthropic key) ;;
        Ok {| provider := VStr (lit "anthropic"); model := m;
              client_handle := Anthropic key |})
  /\ init k cfg e (Some (lit "ollama"))
     = (_ <- construct k ollama_handle ;;
        Ok {| provider := VStr (lit "ollama"); model := m;
              client_handle := ollama_handle |}).
Proof.
  intros Hm Hk; repeat split.
  - change (lit "openai") with [111; 112; 101; 110; 97; 105]%N at 1.
    unfold init; cbn [bind]; rewrite Hm; cbn [bind].
    change (is_str (VStr [111; 112; 101; 110; 97; 105]%N) (lit "anthropic"))
      with false.
    change (is_str (VStr [111; 112; 101; 110; 97; 105]%N) (lit "openai"))
      with true.
    cbv iota; rewrite Hk; reflexivity.
  - change (lit "anthropic")
      with [97; 110; 116; 104; 114; 111; 112; 105; 99]%N at 1.
    unfold init; cbn [bind]; rewrite Hm; cbn [bind].
    change (is_str (VStr [97; 110; 116; 104; 114; 111; 112; 105; 99]%N)
              (lit "anthropic")) with true.
    cbv iota; rewrite Hk; reflexivity.
  - change (lit "ollama") with [111; 108; 108; 97; 109; 97]%N at 1.
    unfold init; cbn [bind]; rewrite Hm; cbn [bind].
    change (is_str (VStr [111; 108; 108; 97; 109; 97]%N) (lit "anthropic"))
      with false.
    change (is_str (VStr [111; 108; 108; 97; 109; 97]%N) (lit "openai"))
      with false.
    change (is_str (VStr [111; 108; 108; 97; 109; 97]%N) (lit "ollama"))
      with true.
    reflexivity.
Qed.

Lemma init_explicit_provider_witness :
  init Session.sdk_up Config.DEFAULT_CONFIG Env.anthropic_only
    (Some (lit "openai"))
  = Ok {| provider := VStr (lit "openai");
          model := VStr (lit "claude-sonnet-4-20250514");
          client_handle := OpenAI None (Some (lit "sk-ant")) |}.
Proof.
  refine (eq_trans
            (proj1 (init_explicit_provider Session.sdk_up
                      Config.DEFAULT_CONFIG Env.anthropic_only
                      (VStr (lit "claude-sonnet-4-20250514"))
                      (Some (lit "sk-ant")) eq_refl eq_refl)) _).
  reflexivity.
Defined.

(** X16.  For the local provider the environment is not consulted: the
    client is the OpenAI client at http://localhost:11434/v1 with the
    dummy key "ollama", whatever the environment holds. *)
Theorem init_ollama_ignores_environment (k : sdk) (cfg : Config.t)
    (e e' : Config.env) (m : value) :
  Config.provider cfg = Ok (VStr (lit "ollama")) ->
  Config.model cfg = Ok m ->
  init k cfg e None = init k cfg e' None
  /\ init k cfg e None
     = (_ <- construct k
               (OpenAI (Some (lit "http://localhost:11434/v1"))
                  (Some (lit "ollama"))) ;;
        Ok {| provider := VStr (lit "ollama"); model := m;
              client_handle :=
                OpenAI (Some (lit "http://localhost:11434/v1"))
                  (Some (lit "ollama")) |})
  /\ Config.api_key cfg e = Ok None.
Proof.
  intros Hp Hm.
  assert (H : forall env,
            init k cfg env None
            = (_ <- construct k ollama_handle ;;
               Ok {| provider := VStr (lit "ollama"); model := m;
                     client_handle := ollama_handle |})).
  { intros env; unfold init; rewrite Hp, Hm; reflexivity. }
  repeat split.
  - rewrite (H e), (H e'); reflexivity.
  - apply H.
  - unfold Config.api_key; rewrite Hp; reflexivity.
Qed.

Lemma init_ollama_ignores_environment_witness :
  init StatedCli.sdk_strict (Env.cfg_provider "ollama") Sample.no_env None
  = init StatedCli.sdk_strict (Env.cfg_provider "ollama") Env.anthropic_only
      None.
Proof.
  apply (init_ollama_ignores_environment StatedCli.sdk_strict
           (Env.cfg_provider "ollama") Sample.no_env Env.anthropic_only
           (VStr (lit "llama2")) eq_refl eq_refl).
Defined.

Lemma first_text_stripped (response : list (option str)) (m : str) :
  first_text response = Ok m -> stripped m.
Proof.
  destruct response as [|[t|] rest]; simpl; try discriminate.
  intros H; injection H as <-; apply StripFacts.strip_stripped.
Qed.

Lemma _generate_stripped (k : sdk) (cfg : Config.t) (c : client)
    (prompt m : str) :
  _generate k cfg c prompt = Ok m -> stripped m.
Proof.
  unfold _generate.
  match goal with |- context [create k ?h ?rq] => destruct (create k h rq) end;
    cbn [bind]; [apply first_text_stripped|discriminate].
Qed.

(** X17.  A message that comes back from the provider, for a generation
    or for a refinement, is the first candidate stripped: it is empty or
    neither starts nor ends with whitespace.  A response without a
    candidate raises IndexError, a first candidate without text
    AttributeError. *)
Theorem provider_messages_are_stripped (k : sdk) (cfg : Config.t)
    (c : client) :
  (forall diff s commits style m,
     generate_commit_message k cfg c diff s commits style = Ok m ->
     stripped m)
  /\ (forall original feedback m,
        refine_message k cfg c original feedback = Ok m -> stripped m)
  /\ first_text [] = Raise IndexError
  /\ (forall rest, first_text (None :: rest) = Raise AttributeError)
  /\ (forall t rest, first_text (Some t :: rest) = Ok (strip t)).
Proof.
  repeat split.
  - intros diff s commits style m; unfold generate_commit_message.
    destruct (generation_prompt cfg diff s commits style); cbn [bind];
      [apply _generate_stripped|discriminate].
  - intros original feedback m; apply _generate_stripped.
Qed.

End LLMMore.

(** ** More on the interactive loop and the commit command *)

Module CliMore.

Import GitUtils Cli Rest.

Lemma regenerate_config (st st' : state) (t : value) :
  dict_get (lit "temperature") (config st) = Some t ->
  regenerate st = Ok st' -> config st' = config st.
Proof.
  intros Ht; unfold regenerate, regen_enter, Config.get; rewrite Ht.
  destruct (Num.add_float t Num.f0_2); cbn [bind]; [|discriminate].
  intros H; injection H as <-.
  cbn [regen_exit regen_body say with_config config]; unfold Config.set.
  rewrite SessionFacts.dict_set_set; apply SessionFacts.dict_set_same, Ht.
Qed.

Lemma loop_config (k : LLM.sdk) (llm : LLM.client) (answers : list choice) :
  forall (message : str) (st : state) (t : value),
    dict_get (lit "temperature") (config st) = Some t ->
    config (final_state (_interactive_edit k llm message answers st))
    = config st.
Proof.
  induction answers as [|a rest IH]; intros message st t Ht;
    [reflexivity|].
  cbn [_interactive_edit]; destruct a.
  - reflexivity.
  - destruct (regenerate (say Menu st)) as [st'|e] eqn:E; [|reflexivity].
    pose proof (regenerate_config (say Menu st) st' t Ht E) as Hc.
    cbn [config say] in Hc.
    rewrite (IH message st' t) by (rewrite Hc; exact Ht).
    exact Hc.
  - cbn [edit]; rewrite (IH _ _ t) by exact Ht; reflexivity.
  - unfold refine; cbn [config say].
    destruct (LLM.refine_message k (config st) llm message feedback);
      cbn [bind]; [|reflexivity].
    rewrite (IH _ _ t) by exact Ht; reflexivity.
  - reflexivity.
Qed.

(** X18.  Whatever the user answers, the interactive loop and what follows
    it in [commit] leave the configuration as they found it (given that it
    has a temperature, as it has after loading): Regenerate is the only
    branch that writes to it, and it writes the old value back. *)
Theorem session_keeps_configuration (k : LLM.sdk) (llm : LLM.client)
    (r : repo) (a : commit_args) (message : str) (st : state) (t : value) :
  dict_get (lit "temperature") (config st) = Some t ->
  config (final_state (_interactive_edit k llm message (answers a) st))
  = config st
  /\ config (final_state (commit_finish k llm r a message st)) = config st
  /\ config (final_state (catch (commit_finish k llm r a message st)))
     = config st.
Proof.
  intros Ht; pose proof (loop_config k llm (answers a) message st t Ht) as H.
  assert (Hf : config (final_state (commit_finish k llm r a message st))
               = config st).
  { unfold commit_finish; destruct (no_edit a).
    - destruct (dry_run a); [reflexivity|].
      destruct (confirm a); [|reflexivity].
      destruct (index_commit r message); reflexivity.
    - destruct (_interactive_edit k llm message (answers a) st)
        as [m st'|c st'|x st'|m st']; try exact H.
      destruct (dry_run a); [exact H|].
      destruct (confirm a); [|exact H].
      destruct (index_commit r m); exact H. }
  repeat split; [exact H|exact Hf|].
  destruct (commit_finish k llm r a message st) as [m st'|c st'|x st'|m st'];
    try exact Hf.
  destruct x; exact Hf.
Qed.

Lemma session_keeps_configuration_witness :
  config
    (final_state
       (_interactive_edit Session.sdk_up Session.llm (lit "feat: add parser")
          [Regenerate; Feedback (lit "shorter"); Regenerate; Accept]
          Session.start))
  = Config.DEFAULT_CONFIG.
Proof.
  exact (proj1 (session_keeps_configuration Session.sdk_up Session.llm
                  Session.repo_one
                  (Session.args [Regenerate; Feedback (lit "shorter");
                                 Regenerate; Accept])
                  (lit "feat: add parser") Session.start
                  (VFloat Num.f0_3) eq_refl)).
Defined.

(** X19.  The loop reads its answers in order and stops at the first
    Accept, Cancel or exception: answers that come after are never read.
    While it has not stopped, it is at the menu with the message in hand,
    and goes on from there with the answers that come next. *)
Theorem loop_reads_answers_in_order (k : LLM.sdk) (llm : LLM.client)
    (answers more : list choice) (message : str) (st : state) :
  match _interactive_edit k llm message answers st with
  | AtMenu m st' =>
      exists st0,
        st' = say Menu st0
        /\ _interactive_edit k llm message (answers ++ more) st
           = _interactive_edit k llm m more st0
  | o => _interactive_edit k llm message (answers ++ more) st = o
  end.
Proof.
  revert message st; induction answers as [|a rest IH]; intros message st.
  - exists st; split; reflexivity.
  - cbn [_interactive_edit app]; destruct a.
    + reflexivity.
    + destruct (regenerate (say Menu st)); [apply IH|reflexivity].
    + cbn [edit]; apply IH.
    + destruct (refine k llm message feedback (say Menu st)) as [[m st']|e];
        [apply IH|reflexivity].
    + reflexivity.
Qed.


Lemma commit_finish_return (k : LLM.sdk) (llm : LLM.client) (r : repo)
    (a : commit_args) (message : str) (st st' : state) (h : str) :
  commit_finish k llm r a message st = Return (Some h) st' ->
  dry_run a = false /\ confirm a = true
  /\ exists m, index_commit r m = Ok h.
Proof.
  unfold commit_finish.
  destruct (if no_edit a then Return message st
            else _interactive_edit k llm message (answers a) st)
    as [m s|c s|x s|m s]; try discriminate.
  destruct (dry_run a); [discriminate|].
  destruct (confirm a); [|discriminate].
  destruct (index_commit r m) as [h'|x] eqn:E; [|discriminate].
  intros H; injection H as <- _; repeat split; exists m; exact E.
Qed.


Lemma commit_body_return (k : LLM.sdk) (e : Config.env) (r : option repo)
    (a : commit_args) (st st' : state) (h : str) :
  commit_body k e r a st = Return (Some h) st' ->
  dry_run a = false /\ confirm a = true
  /\ exists r0 m,
       r = Some r0 /\ has_staged_changes r0 = true
       /\ index_commit r0 m = Ok h.
Proof.
  unfold commit_body; destruct r as [r0|]; [|discriminate].
  destruct (LLM.init k _ e None) as [llm|x]; [|discriminate].
  destruct (has_staged_changes r0) eqn:Hs; cbn [negb]; [|discriminate].
  destruct (_show_staged_changes r0 _) as [s1|x]; [|discriminate].
  destruct (get_staged_diff r0) as [diff|x]; [|discriminate].
  destruct (LLM.generate_commit_message k _ llm diff _ _ _) as [m|x];
    [|discriminate].
  intros H; apply commit_finish_return in H as (Hd & Hc & m' & Hm).
  repeat split; try assumption.
  exists r0, m'; repeat split; assumption.
Qed.

(** X20.  [commit] creates a commit only when it is no dry run, the
    confirmation was given and something is staged; the hash it reports
    is the one the repository returned for the commit.  With [--dry-run],
    or when the confirmation is declined, no commit is created. *)
Theorem commit_only_when_confirmed (k : LLM.sdk) (e : Config.env)
    (r : option repo) (a : commit_args) (st st' : state) (h : str) :
  commit k e r a st = Return (Some h) st' ->
  dry_run a = false /\ confirm a = true
  /\ exists r0 m,
       r = Some r0 /\ has_staged_changes r0 = true
       /\ index_commit r0 m = Ok h.
Proof.
  unfold commit, catch.
  destruct (commit_body k e r a st) as [o s|c s|x s|m s] eqn:E;
    try discriminate.
  - intros H; injection H as -> ->.
    apply (commit_body_return _ _ _ _ _ _ _ E).
  - destruct x; discriminate.
Qed.

Lemma commit_only_when_confirmed_witness :
  Cli.dry_run (Session.args [Accept]) = false
  /\ Cli.confirm (Session.args [Accept]) = true
  /\ exists r0 m,
       Some Session.repo_one = Some r0 /\ has_staged_changes r0 = true
       /\ index_commit r0 m = Ok Session.full_hash.
Proof.
  refine (commit_only_when_confirmed Session.sdk_up Env.anthropic_only
            (Some Session.repo_one) (Session.args [Accept]) Session.start
            _ Session.full_hash _).
  vm_compute; reflexivity.
Defined.





(** The three ways [commit] leaves, on a repository with one staged file:
    Accept and a confirmation return the hash; a dry run returns without
    one; Cancel is [sys.exit(0)]; outside a repository it is
    [sys.exit(1)]. *)
Example commit_leaves :
  (exists st',
     commit Session.sdk_up Env.anthropic_only (Some Session.repo_one)
       (Session.args [Accept]) Session.start
     = Return (Some Session.full_hash) st')
  /\ (exists st',
        commit Session.sdk_up Env.anthropic_only (Some Session.repo_one)
          {| style := style (Session.args [Accept]);
             dry_run := true;
             no_edit := no_edit (Session.args [Accept]);
             provider := provider (Session.args [Accept]);
             answers := [Accept];
             confirm := confirm (Session.args [Accept]) |}
          Session.start
        = Return None st')
  /\ (exists st',
        commit Session.sdk_up Env.anthropic_only (Some Session.repo_one)
          (Session.args [Cancel]) Session.start
        = Exit 0 st')
  /\ (exists st',
        commit Session.sdk_up Env.anthropic_only None
          (Session.args [Accept]) Session.start
        = Exit 1 st').
Proof.
  repeat split; eexists; vm_compute; reflexivity.
Qed.

End CliMore.

(** ** More on the commands *)

Module CommandFacts.

Import GitUtils Cli Rest Setup.

(** X22.  [commit] checks in this order: the repository, then the client
    (built under the provider of [--provider]), then whether anything is
    staged.  Outside a repository it reports "Not a git repository"; with
    nothing staged it still builds the client first, so a failure of the
    construction is what is reported; only when the client is built does
    it say that nothing is staged.  Each of the three ends with status 1. *)
Theorem commit_order_of_checks (k : LLM.sdk) (e : Config.env)
    (a : commit_args) (st : state) :
  commit k e None a st
  = Exit 1 (say (Failure (lit "Git Error:")
                   (GitError (lit "Not a git repository"))) st)
  /\ forall r0,
       let st1 := with_provider a st in
       (forall x,
          LLM.init k (config st1) e None = Raise x ->
          exists label,
            commit k e (Some r0) a st = Exit 1 (say (Failure label x) st1))
       /\ (forall llm,
             LLM.init k (config st1) e None = Ok llm ->
             has_staged_changes r0 = false ->
             commit k e (Some r0) a st
             = Exit 1
                 (say (Say (lit "Use [cyan]git add[/cyan] to stage your changes first."))
                    (say (Say (lit "[red]No staged changes found.[/red]"))
                       st1))).
Proof.
  split; [reflexivity|].
  intros r0 st1; split.
  - intros x Hx; unfold commit, commit_body.
    fold (with_provider a st); fold st1; rewrite Hx.
    destruct x; eexists; reflexivity.
  - intros llm Hl Hs; unfold commit, commit_body.
    fold (with_provider a st); fold st1; rewrite Hl, Hs; reflexivity.
Qed.

(** X23.  With [--no-edit] the menu is never shown: the answers and the
    provider play no part, and the message that was generated is the one
    handed to the repository's commit (after the confirmation, unless it
    is a dry run). *)
Theorem no_edit_skips_the_loop (k k' : LLM.sdk) (llm llm' : LLM.client)
    (r : repo) (a a' : commit_args) (message : str) (st : state) :
  no_edit a = true -> no_edit a' = true ->
  dry_run a' = dry_run a -> confirm a' = confirm a ->
  commit_finish k llm r a message st = commit_finish k' llm' r a' message st
  /\ (dry_run a = false -> confirm a = true ->
      commit_finish k llm r a message st
      = match index_commit r message with
        | Ok commit_hash =>
            Return (Some commit_hash)
              (say (Say (nl ++ lit "[green]✓ Commit created:[/green] "
                           ++ slice_to commit_hash 7)) st)
        | Raise x => Throw x st
        end).
Proof.
  intros H1 H2 H3 H4; unfold commit_finish; rewrite H1, H2, H3, H4.
  split; [reflexivity|].
  intros Hd Hc; rewrite Hd, Hc; reflexivity.
Qed.

Lemma no_edit_skips_the_loop_witness :
  commit_finish Session.sdk_down Session.llm Session.repo_one
    {| style := lit "simple"; dry_run := false; no_edit := true;
       provider := None; answers := [Cancel]; confirm := true |}
    (lit "feat: add parser") Session.start
  = Return (Some Session.full_hash)
      (say (Say (nl ++ lit "[green]✓ Commit created:[/green] "
                   ++ lit "0123456"))
         Session.start).
Proof.
  refine (eq_trans
            (proj2 (no_edit_skips_the_loop Session.sdk_down Session.sdk_up
                      Session.llm Session.llm Session.repo_one
                      {| style := lit "simple"; dry_run := false;
                         no_edit := true; provider := None;
                         answers := [Cancel]; confirm := true |}
                      {| style := lit "simple"; dry_run := false;
                         no_edit := true; provider := None;
                         answers := []; confirm := true |}
                      (lit "feat: add parser") Session.start
                      eq_refl eq_refl eq_refl eq_refl) eq_refl eq_refl) _).
  reflexivity.
Defined.

(** X24.  [status] shows a table with one row per staged entry, in the
    order of the index diff, with the path the summary gives it, and the
    line with the counts; it leaves the configuration alone.  Only
    GitError is caught: when the shortstat line cannot be parsed the
    ValueError leaves [status] uncaught, where [commit] would report it
    and exit with 1. *)
Theorem status_shows_staged_entries (r : repo) (st : state) :
  match get_commit_stats (index_diff r) (shortstat r) with
  | Ok (n, t) =>
      exists rows line st',
        status (Some r) st = Return tt st'
        /\ config st' = config st
        /\ console st'
           = console st
               ++ [ Say (nl ++ lit "[bold]Staged Changes:[/bold]");
                    Table rows; Say line ]
        /\ List.map fst rows
           = List.map (fun i => or_else (a_path i) (b_path i)) (index_diff r)
        /\ n = Z.of_nat (List.length rows)
  | Raise x =>
      status (Some r) st = Throw x st /\ exists w, x = ValueError w
  end.
Proof.
  destruct (GitMore.stats_outcome (index_diff r) (shortstat r))
    as [[t E]|[w E]]; rewrite E.
  - unfold status, _show_staged_changes; rewrite E; cbn [bind].
    do 3 eexists; repeat split.
    + cbn [console say]; rewrite <- !List.app_assoc; reflexivity.
    + rewrite List.map_map, GitMore.summary_entries, List.map_map.
      reflexivity.
    + rewrite List.length_map, GitMore.summary_entries, List.length_map.
      reflexivity.
  - unfold status, _show_staged_changes; rewrite E; cbn [bind].
    split; [reflexivity|exists w; reflexivity].
Qed.

Example status_outside_repository :
  status None Session.start
  = Exit 1 (say (Failure (lit "Git Error:")
                   (GitError (lit "Not a git repository"))) Session.start).
Proof. reflexivity. Qed.

(** X25.  The demo's table and the tables of [commit] and [status] list
    the same files and name every change type alike, except renames: the
    demo shows the bare "R" where the command shows "Renamed". *)
Theorem demo_and_cli_status_names (diff : list diff_item) (t : option str) :
  List.map fst (demo_rows diff) = List.map fst (cli_rows diff)
  /\ (type_is t "R" = false -> demo_status_name t = status_name t)
  /\ (type_is t "R" = true ->
      demo_status_name t = Some (lit "R")
      /\ status_name t = Some (lit "Renamed")).
Proof.
  repeat split.
  - unfold demo_rows, cli_rows; rewrite !List.map_map; reflexivity.
  - intros H; unfold demo_status_name, status_name; rewrite H; reflexivity.
  - apply GitMore.type_is_eq in H; subst; reflexivity.
  - apply GitMore.type_is_eq in H; subst; reflexivity.
Qed.

(** X26.  The wizard stores the chosen provider under provider and the
    chosen style under default_style, keeps every other key, and writes
    the configuration it ends with to the file; the help about the API key
    is shown unless the provider is ollama. *)
Theorem setup_stores_choices (title : str -> str) (config_path : str)
    (p s : str) (st : state) (old : value) :
  Config.provider (config st) = Ok old ->
  exists file st',
    setup title config_path (Some p) (Some s) st = Return file st'
    /\ file = config st'
    /\ Config.get file (lit "provider") VNone = VStr p
    /\ Config.get file (lit "default_style") VNone = VStr s
    /\ (forall key dflt,
          key <> lit "provider" -> key <> lit "default_style" ->
          Config.get file key dflt = Config.get (config st) key dflt)
    /\ (List.length (console st')
        = List.length (console st) + (if Str.eqb p (lit "ollama") then 8 else 12))%nat.
Proof.
  intros Hp; unfold setup; cbn [config say].
  rewrite Hp; cbn [is_str].
  destruct (Str.eqb p (lit "ollama")) eqn:E.
  - do 2 eexists; repeat split.
    + cbn [config say with_config]; unfold Config.get, Config.set.
      rewrite dict_get_set_other, dict_get_set_same; [reflexivity|].
      vm_compute; discriminate.
    + cbn [config say with_config]; apply SessionFacts.get_set_same.
    + intros key dflt H1 H2; cbn [config say with_config].
      rewrite !PromptMore.get_set_other by assumption; reflexivity.
    + cbn [console say with_config]; rewrite !List.length_app; simpl; lia.
  - do 2 eexists; repeat split.
    + cbn [config say with_config]; unfold Config.get, Config.set.
      rewrite dict_get_set_other, dict_get_set_same; [reflexivity|].
      vm_compute; discriminate.
    + cbn [config say with_config]; apply SessionFacts.get_set_same.
    + intros key dflt H1 H2; cbn [config say with_config].
      rewrite !PromptMore.get_set_other by assumption; reflexivity.
    + cbn [console say with_config]; rewrite !List.length_app; simpl; lia.
Qed.

Lemma setup_stores_choices_witness :
  exists file st',
    setup (fun x => x) (lit "~/.git-ai/config.yaml") (Some (lit "openai"))
      (Some (lit "semantic")) Session.start
    = Return file st'
    /\ Config.get file (lit "provider") VNone = VStr (lit "openai")
    /\ Config.get file (lit "default_style") VNone = VStr (lit "semantic").
Proof.
  destruct (setup_stores_choices (fun x => x) (lit "~/.git-ai/config.yaml")
              (lit "openai") (lit "semantic") Session.start
              (VStr (lit "anthropic")) eq_refl)
    as (file & st' & H1 & _ & H2 & H3 & _).
  exists file, st'; repeat split; assumption.
Defined.

(** The style chosen in the wizard is stored and never read: the prompt of
    a later [commit] is the one of its [--style]. *)
Example setup_style_is_not_used :
  LLM.generation_prompt
    (Config.set Config.DEFAULT_CONFIG (lit "default_style")
       (VStr (lit "semantic")))
    (lit "+x") Sample.api_py_added [] (lit "conventional")
  = LLM.generation_prompt Config.DEFAULT_CONFIG (lit "+x")
      Sample.api_py_added [] (lit "conventional").
Proof. vm_compute; reflexivity. Qed.

End CommandFacts.
